(** * Patent pipeline: name standardisation, de-duplication and merge

    A shallow embedding of [src/transformers/cleaner.py] (class
    [PatentCleaner]), of the rule tables of [src/config.py], of the
    classification and parsing functions of
    [src/extractors/lens_extractor.py], of the run history of
    [src/utils/state.py] and of the update step of [src/app.py].

    Modelling conventions.
    - A Python [str] is a list of characters.  Characters are the 256
      values of [ascii]; the character classes below ([isspace], [isalpha],
      case mapping, ...) are Python's restricted to the ASCII range.
    - A pandas [DataFrame] is the list of its rows, in index order; a row
      is a record with a cell for every column of [OUTPUT_COLUMNS].  The
      frames [merge_with_existing] works on have all these columns, so
      there the [if col in df.columns] guards of the source take their
      positive branch.  The frame [clean] builds from the extracted
      dicts has the columns the dicts have keys for: [clean] takes the
      list of these columns, its steps test it where the source tests
      [df.columns], and a column the source indexes without a test and
      does not find is a [KeyError], the result [None].  The cell of an
      absent column is never read.  Cells are strings (integers for the
      two numeric columns): missing values ([NaN]) are outside the model.
    - [ResourceId] is an [int64] column.  The model computes the
      identifiers in [Z]; this is what the code computes as long as the
      identifiers a merge hands out fit the column ([ids_fit_int64]).
      Beyond that the column changes its type, which is outside the
      model: the statements that depend on it carry the bound.
    - The [re] module is embedded as a backtracking matcher over a regular
      expression syntax tree, with a parser for the pattern syntax the
      tables use, so that the tables are written as the source writes them.
    - Logging and the [stats] counters do not influence any returned
      value and are left out, as are the HTTP requests and the files: the
      extractor is modelled from the records a search returned, the run
      history as the state held in memory, and the clock is an argument. *)

From Stdlib Require Import Ascii String ZArith Lia Bool.
From stdpp Require Import base decidable list gmap strings.

Open Scope list_scope.

(** ** Strings *)

Definition str := list ascii.

(** String literals are read as Python strings. *)
Definition py (s : string) : str := list_ascii_of_string s.
Coercion py : string >-> str.

Definition code (c : ascii) : nat := nat_of_ascii c.

Definition in_range (lo hi : nat) (c : ascii) : bool :=
  (lo <=? code c) && (code c <=? hi).

Definition is_upper_c : ascii -> bool := in_range 65 90.
Definition is_lower_c : ascii -> bool := in_range 97 122.
Definition is_digit_c : ascii -> bool := in_range 48 57.
Definition is_alpha_c (c : ascii) : bool := is_upper_c c || is_lower_c c.
Definition is_alnum_c (c : ascii) : bool := is_alpha_c c || is_digit_c c.

(** [str.isspace] on one character: TAB, LF, VT, FF, CR, the four
    separators FS, GS, RS, US, and the space. *)
Definition isspace_c (c : ascii) : bool :=
  in_range 9 13 c || in_range 28 32 c.

Definition lower_c (c : ascii) : ascii :=
  if is_upper_c c then ascii_of_nat (code c + 32) else c.
Definition upper_c (c : ascii) : ascii :=
  if is_lower_c c then ascii_of_nat (code c - 32) else c.

(** [s.lower()], [s.upper()] *)
Definition lower (s : str) : str := map lower_c s.
Definition upper (s : str) : str := map upper_c s.

(** [s.lstrip(..)], [s.rstrip(..)], [s.strip(..)] for a set of characters
    given as a predicate. *)
Fixpoint lstrip_by (p : ascii -> bool) (s : str) : str :=
  match s with
  | [] => []
  | c :: t => if p c then lstrip_by p t else s
  end.
Definition rstrip_by (p : ascii -> bool) (s : str) : str :=
  rev (lstrip_by p (rev s)).
Definition strip_by (p : ascii -> bool) (s : str) : str :=
  rstrip_by p (lstrip_by p s).

(** [s.strip()] *)
Definition strip (s : str) : str := strip_by isspace_c s.

Definition mem_c (chars : str) (c : ascii) : bool :=
  existsb (Ascii.eqb c) chars.

(** [s.strip(chars)] *)
Definition strip_chars (chars : str) (s : str) : str :=
  strip_by (mem_c chars) s.

(** [s.replace(c, '')] for a one-character [c] *)
Definition remove_c (c : ascii) (s : str) : str :=
  List.filter (fun x => negb (Ascii.eqb x c)) s.

(** [s.split(sep)] for a one-character separator: never an empty list. *)
Fixpoint split_on (sep : ascii) (s : str) : list str :=
  match s with
  | [] => [[]]
  | c :: t =>
      if Ascii.eqb c sep then [] :: split_on sep t
      else match split_on sep t with
           | h :: r => (c :: h) :: r
           | [] => [[c]]
           end
  end.

(** [s.split()]: maximal runs of non-whitespace characters. *)
Fixpoint split_ws_aux (cur : str) (s : str) : list str :=
  match s with
  | [] => match cur with [] => [] | _ => [rev cur] end
  | c :: t =>
      if isspace_c c
      then match cur with
           | [] => split_ws_aux [] t
           | _ => rev cur :: split_ws_aux [] t
           end
      else split_ws_aux (c :: cur) t
  end.
Definition split_ws (s : str) : list str := split_ws_aux [] s.

(** [sep.join(parts)] *)
Fixpoint join (sep : str) (parts : list str) : str :=
  match parts with
  | [] => []
  | [p] => p
  | p :: rest => p ++ sep ++ join sep rest
  end.

(** [s.isupper()]: at least one cased character and no lower-case one. *)
Definition isupper (s : str) : bool :=
  existsb is_upper_c s && forallb (fun c => negb (is_lower_c c)) s.

(** [s.isalpha()], [s.isdigit()]: non-empty and every character in the
    class. *)
Definition isalpha (s : str) : bool :=
  negb (Nat.eqb (length s) 0) && forallb is_alpha_c s.
Definition isdigit (s : str) : bool :=
  negb (Nat.eqb (length s) 0) && forallb is_digit_c s.

(** [s.title()]: a letter is upper-cased when the previous character is
    not a letter and lower-cased when it is. *)
Fixpoint title_aux (prev_cased : bool) (s : str) : str :=
  match s with
  | [] => []
  | c :: t =>
      if is_alpha_c c
      then (if prev_cased then lower_c c else upper_c c) :: title_aux true t
      else c :: title_aux false t
  end.
Definition title (s : str) : str := title_aux false s.

Fixpoint prefixb (p s : str) : bool :=
  match p, s with
  | [], _ => true
  | _ :: _, [] => false
  | a :: p', b :: s' => Ascii.eqb a b && prefixb p' s'
  end.

(** [sub in s] on strings *)
Fixpoint contains (sub s : str) : bool :=
  prefixb sub s ||
  match s with
  | [] => false
  | _ :: t => contains sub t
  end.

(** [s[:n]] *)
Definition slice_to (n : nat) (s : str) : str := take n s.

(** [bool(s)] of a string: non-empty. *)
Definition truthy (s : str) : bool :=
  match s with [] => false | _ => true end.

(** ** Regular expressions (the part of [re] the source uses) *)

Module Re.

Inductive regex : Type :=
| Eps
| Chr (c : ascii)
| Any                                          (* [.]: all but newline *)
| Space                                        (* [\s] *)
| Word                                         (* [\w] *)
| Class (neg : bool) (items : list (ascii * ascii))   (* [[a-z0-9]] *)
| Bol                                          (* [^] *)
| Eol                                          (* [$] *)
| Seq (a b : regex)
| Alt (a b : regex)
| Star (a : regex)
| Plus (a : regex)
| Opt (a : regex).

Definition newline : ascii := ascii_of_nat 10.

Definition in_class (items : list (ascii * ascii)) (c : ascii) : bool :=
  existsb (fun it => in_range (code (fst it)) (code (snd it)) c) items.

(** One character against a one-character pattern; [ic] is
    [re.IGNORECASE]. *)
Definition chr_ok (ic : bool) (c x : ascii) : bool :=
  if ic then Ascii.eqb (lower_c x) (lower_c c) else Ascii.eqb x c.
Definition class_ok (ic neg : bool) (items : list (ascii * ascii))
    (x : ascii) : bool :=
  xorb neg (in_class items x
            || (ic && (in_class items (lower_c x) || in_class items (upper_c x)))).
Definition word_c (x : ascii) : bool :=
  is_alnum_c x || Ascii.eqb x "_".

Definition one_char {A} (ok : ascii -> bool) (k : nat -> str -> option A)
    (i : nat) (s : str) : option A :=
  match s with
  | x :: t => if ok x then k (S i) t else None
  | [] => None
  end.

Definition orelse {A} (a b : option A) : option A :=
  match a with Some _ => a | None => b end.

(** The loop of a greedy repetition whose body is matched by [body]:
    one more round if the body matches and consumes something, else the
    continuation. *)
Definition star_loop {A}
    (body : (nat -> str -> option A) -> nat -> str -> option A)
    (k : nat -> str -> option A) : nat -> nat -> str -> option A :=
  fix loop (n : nat) (i : nat) (s : str) : option A :=
    match n with
    | O => k i s
    | S n' =>
        orelse
          (body (fun i' s' => if i <? i' then loop n' i' s' else None) i s)
          (k i s)
    end.

(** The backtracking matcher.  [m ic r k i s] matches [r] at offset [i],
    where [s] is the rest of the subject, and passes the offset and the
    rest after the match to the continuation [k]; alternatives are tried
    in [re]'s order (greedy repetition first, left alternative first).
    A repetition re-enters its body only after the body consumed
    something, so the length of the rest bounds the number of rounds. *)
Fixpoint m {A} (ic : bool) (r : regex) (k : nat -> str -> option A)
    (i : nat) (s : str) {struct r} : option A :=
  match r with
  | Eps => k i s
  | Chr c => one_char (chr_ok ic c) k i s
  | Any => one_char (fun x => negb (Ascii.eqb x newline)) k i s
  | Space => one_char isspace_c k i s
  | Word => one_char word_c k i s
  | Class neg items => one_char (class_ok ic neg items) k i s
  | Bol => if Nat.eqb i 0 then k i s else None
  | Eol =>
      match s with
      | [] => k i s
      | [x] => if Ascii.eqb x newline then k i s else None
      | _ => None
      end
  | Seq a b => m ic a (m ic b k) i s
  | Alt a b => orelse (m ic a k i s) (m ic b k i s)
  | Opt a => orelse (m ic a k i s) (k i s)
  | Star a => star_loop (m ic a) k (length s) i s
  | Plus a => m ic a (fun i1 s1 => star_loop (m ic a) k (length s1) i1 s1) i s
  end.

(** [bool(re.match(pattern, s, flags))] *)
Definition re_match (ic : bool) (r : regex) (s : str) : bool :=
  match m ic r (fun _ _ => Some tt) 0 s with Some _ => true | None => false end.

(** [re.sub(pattern, '', s)]: scanning left to right, the leftmost match
    at each offset is deleted; [skip] counts the characters of a match
    still to be dropped. *)
Fixpoint delete_aux (r : regex) (skip : nat) (i : nat) (s : str) : str :=
  match s with
  | [] => []
  | c :: t =>
      match skip with
      | S n => delete_aux r n (S i) t
      | O =>
          match m false r (fun _ rest => Some (length s - length rest)) i s with
          | Some (S n) => delete_aux r n (S i) t
          | _ => c :: delete_aux r 0 (S i) t
          end
      end
  end.
Definition re_delete (r : regex) (s : str) : str := delete_aux r 0 0 s.

(** *** The pattern syntax

    Literals, [.], the escapes [\s], [\w] and escaped punctuation, [^],
    [$], groups, [|], bracketed classes with ranges and negation, and the
    postfix operators [*], [+], [?] and [{n}] for a one-digit [n].  A
    sequence is parsed into a right-nested [Seq] ending in [Eps]. *)

Fixpoint parse_class (n : nat) (s : str) : option (list (ascii * ascii) * str) :=
  match n with
  | O => None
  | S n' =>
      match s with
      | [] => None
      | "]"%char :: t => Some ([], t)
      | lo :: "-"%char :: hi :: t =>
          if Ascii.eqb hi "]" then
            match parse_class n' ("-"%char :: hi :: t) with
            | Some (items, t') => Some ((lo, lo) :: items, t')
            | None => None
            end
          else
            match parse_class n' t with
            | Some (items, t') => Some ((lo, hi) :: items, t')
            | None => None
            end
      | c :: t =>
          match parse_class n' t with
          | Some (items, t') => Some ((c, c) :: items, t')
          | None => None
          end
      end
  end.

Fixpoint repeat_seq (n : nat) (a : regex) : regex :=
  match n with
  | O => Eps
  | S n' => Seq a (repeat_seq n' a)
  end.

Definition digit_val (c : ascii) : option nat :=
  if is_digit_c c then Some (code c - 48) else None.

Fixpoint postfix (n : nat) (a : regex) (s : str) : regex * str :=
  match n with
  | O => (a, s)
  | S n' =>
      match s with
      | "*"%char :: t => postfix n' (Star a) t
      | "+"%char :: t => postfix n' (Plus a) t
      | "?"%char :: t => postfix n' (Opt a) t
      | "{"%char :: d :: "}"%char :: t =>
          match digit_val d with
          | Some c => postfix n' (repeat_seq c a) t
          | None => (a, s)
          end
      | _ => (a, s)
      end
  end.

Definition escape (c : ascii) : regex :=
  if Ascii.eqb c "s" then Space
  else if Ascii.eqb c "w" then Word
  else Chr c.

Fixpoint parse_alt (n : nat) (s : str) : option (regex * str) :=
  match n with
  | O => None
  | S n' =>
      match parse_seq n' s with
      | Some (a, "|"%char :: t) =>
          match parse_alt n' t with
          | Some (b, t') => Some (Alt a b, t')
          | None => None
          end
      | other => other
      end
  end
with parse_seq (n : nat) (s : str) : option (regex * str) :=
  match n with
  | O => None
  | S n' =>
      match s with
      | [] => Some (Eps, [])
      | ")"%char :: _ => Some (Eps, s)
      | "|"%char :: _ => Some (Eps, s)
      | _ =>
          match parse_atom n' s with
          | Some (a, t) =>
              let '(a', t') := postfix n' a t in
              match parse_seq n' t' with
              | Some (b, t'') => Some (Seq a' b, t'')
              | None => None
              end
          | None => None
          end
      end
  end
with parse_atom (n : nat) (s : str) : option (regex * str) :=
  match n with
  | O => None
  | S n' =>
      match s with
      | [] => None
      | "("%char :: t =>
          match parse_alt n' t with
          | Some (a, ")"%char :: t') => Some (a, t')
          | _ => None
          end
      | "\"%char :: c :: t => Some (escape c, t)
      | "["%char :: "^"%char :: t =>
          match parse_class n' t with
          | Some (items, t') => Some (Class true items, t')
          | None => None
          end
      | "["%char :: t =>
          match parse_class n' t with
          | Some (items, t') => Some (Class false items, t')
          | None => None
          end
      | "."%char :: t => Some (Any, t)
      | "^"%char :: t => Some (Bol, t)
      | "$"%char :: t => Some (Eol, t)
      | c :: t => Some (Chr c, t)
      end
  end.

Definition parse (p : str) : option regex :=
  match parse_alt (3 * length p + 3) p with
  | Some (r, []) => Some r
  | _ => None
  end.

(** [re.compile(p)]; a pattern outside the syntax above matches nothing
    (none of the patterns of the source is). *)
Definition compile (p : string) : regex :=
  match parse p with
  | Some r => r
  | None => Class false []
  end.

End Re.

Import Re.

(** ** Configuration ([src/config.py]) *)

(** [INSTITUTION_STANDARDS]: a dict literal, iterated in insertion
    order. *)
Definition INSTITUTION_STANDARDS_items : list (string * string) := [
    ("qatar\s*found.*education.*science.*community.*dev.*",
     "Qatar Foundation for Education, Science and Community Development");
    ("qatar\s*found.*education.*science.*community",
     "Qatar Foundation for Education, Science and Community Development");
    ("qatar\s*found.*science.*education.*community",
     "Qatar Foundation for Education, Science and Community Development");
    ("qatar\s*found.*science.*education.*social",
     "Qatar Foundation for Education, Science and Community Development");
    ("qatar\s*found.*for\s*science\s*education",
     "Qatar Foundation for Education, Science and Community Development");
    ("qatar\s*found.*education.*science.*",
     "Qatar Foundation for Education, Science and Community Development");
    ("qatar\s*found.*science.*community",
     "Qatar Foundation for Education, Science and Community Development");
    ("qatar\s*foundation\s*for\s*education",
     "Qatar Foundation for Education, Science and Community Development");
    ("qatar\s*foundation\s*for\s*ed\.?\s*science",
     "Qatar Foundation for Education, Science and Community Development");
    ("^qatar\s*foundation\s*,?\s*$",
     "Qatar Foundation for Education, Science and Community Development");
    ("^qatar\s*found\.?\s*,?\s*$",
     "Qatar Foundation for Education, Science and Community Development");
    ("^qatar\s*found\s+for\s+",
     "Qatar Foundation for Education, Science and Community Development");
    ("qatar\s*founation",
     "Qatar Foundation for Education, Science and Community Development");
    ("qatar\s*foundatiion",
     "Qatar Foundation for Education, Science and Community Development");
    ("qatar\s*foundat?ion",
     "Qatar Foundation for Education, Science and Community Development");
    ("qator\s*found",
     "Qatar Foundation for Education, Science and Community Development");
    ("qf\s*for\s*education",
     "Qatar Foundation for Education, Science and Community Development");
    ("^qatar\s+found\s*$",
     "Qatar Foundation for Education, Science and Community Development");
    ("qatar\s*mini.*education.*higher",
     "Qatar Ministry of Education and Higher Education");
    ("qatar\s*ministry.*education.*higher",
     "Qatar Ministry of Education and Higher Education");
    ("qatar\s*ministry\s*of\s*education",
     "Qatar Ministry of Education and Higher Education");
    ("qatar\s*mini.*of.*education",
     "Qatar Ministry of Education and Higher Education");
    ("ministry.*education.*qatar",
     "Qatar Ministry of Education and Higher Education");
    ("^moe\s*qatar",
     "Qatar Ministry of Education and Higher Education");
    ("^moehe\s*$",
     "Qatar Ministry of Education and Higher Education");
    ("^univ\.?\s*qatar",
     "Qatar University");
    ("^qatar\s*university\s*qstp.*",
     "Qatar University");
    ("^qatar\s*university\s*,?\s*$",
     "Qatar University");
    ("^qatar\s*univ\.?\s*",
     "Qatar University");
    ("^quatar\s*univ",
     "Qatar University");
    ("qatar\s*university\s*global\s*patent",
     "Qatar University");
    ("qatar\s*university\s*office",
     "Qatar University");
    ("qatar\s*university\s*al\s*tarfa",
     "Qatar University");
    ("^qu\s*qstp",
     "Qatar University");
    ("hamad\s*med.*corp",
     "Hamad Medical Corporation");
    ("^hamad\s*medical\s*$",
     "Hamad Medical Corporation");
    ("^hmc\s*$",
     "Hamad Medical Corporation");
    ("^sidra\s*med.*",
     "Sidra Medicine");
    ("^sidra\s*research",
     "Sidra Medicine");
    ("hamad\s*bin\s*khalifa\s*univ.*",
     "Hamad Bin Khalifa University");
    ("^hbku\s*$",
     "Hamad Bin Khalifa University");
    ("qatar\s*football\s*ass.*",
     "Qatar Football Association");
    ("^qfa\s*$",
     "Qatar Football Association");
    ("maersk\s*oil\s*qatar.*",
     "Maersk Oil Qatar AS");
    ("^maersk\s*qatar",
     "Maersk Oil Qatar AS");
    ("college.*north\s*atlantic.*qatar",
     "College of the North Atlantic Qatar");
    ("^cna\s*qatar",
     "College of the North Atlantic Qatar");
    ("^cna-q",
     "College of the North Atlantic Qatar");
    ("texas\s*a\s*&?\s*m\s*univ.*",
     "Texas A&M University at Qatar");
    ("^tamu\s*qatar",
     "Texas A&M University at Qatar");
    ("^tamuq",
     "Texas A&M University at Qatar");
    ("weill\s*cornell.*",
     "Weill Cornell Medicine-Qatar");
    ("^wcm-?q",
     "Weill Cornell Medicine-Qatar");
    ("northwestern.*qatar",
     "Northwestern University in Qatar");
    ("^nu-?q",
     "Northwestern University in Qatar");
    ("carnegie\s*mellon.*",
     "Carnegie Mellon University in Qatar");
    ("^cmu-?q",
     "Carnegie Mellon University in Qatar");
    ("georgetown.*qatar",
     "Georgetown University in Qatar");
    ("^gu-?q",
     "Georgetown University in Qatar");
    ("virginia\s*commonwealth.*qatar",
     "Virginia Commonwealth University in Qatar");
    ("^vcu-?q",
     "Virginia Commonwealth University in Qatar");
    ("university\s*of\s*doha",
     "University of Doha for Science and Technology");
    ("^udst",
     "University of Doha for Science and Technology");
    ("qatar\s*fertiliser",
     "Qatar Fertiliser Company");
    ("anti.*doping.*qatar",
     "Anti-Doping Lab Qatar");
    ("qatar\s*invest.*authority",
     "Qatar Investment Authority");
    ("^qia\s*$",
     "Qatar Investment Authority");
    ("qatar\s*petroleum",
     "Qatar Petroleum");
    ("^qp\s*$",
     "Qatar Petroleum");
    ("qatar\s*energy",
     "Qatar Energy");
    ("qatar\s*national\s*research\s*fund",
     "Qatar National Research Fund");
    ("^qnrf\s*$",
     "Qatar National Research Fund");
    ("qatar\s*biobank",
     "Qatar Biobank");
    ("qatar\s*genome",
     "Qatar Genome Programme");
    ("qatar\s*computing\s*research",
     "Qatar Computing Research Institute");
    ("^qcri\s*$",
     "Qatar Computing Research Institute");
    ("qatar\s*environment.*energy",
     "Qatar Environment and Energy Research Institute");
    ("^qeeri\s*$",
     "Qatar Environment and Energy Research Institute");
    ("qatar\s*biomedical\s*research",
     "Qatar Biomedical Research Institute");
    ("^qbri\s*$",
     "Qatar Biomedical Research Institute");
    ("iberdrola\s*qstp",
     "Iberdrola QSTP LLC")
  ]%string.

(** [GARBAGE_FRAGMENTS] *)
Definition GARBAGE_FRAGMENTS_items : list string := [
    "^science\s*(and|&)?\s*community.*$";
    "^education\s*(and|&)?\s*science.*$";
    "^community\s*development.*$";
    "^social\s*development.*$";
    "^higher\s*education.*$";
    "^(and|&)\s+\w+.*$";
    "^for\s+\w+.*$"
  ]%string.


Definition INSTITUTION_STANDARDS : list (regex * str) :=
  map (fun e => (compile (fst e), py (snd e))) INSTITUTION_STANDARDS_items.

Definition GARBAGE_FRAGMENTS : list regex :=
  map compile GARBAGE_FRAGMENTS_items.

(** ** The cleaner ([src/transformers/cleaner.py]) *)

(** The pattern of the country codes, [\s*\[[A-Z]{2}\]\s*]. *)
Definition country_code : regex := compile "\s*\[[A-Z]{2}\]\s*".

(** [for garbage_pattern in GARBAGE_FRAGMENTS:
       if re.match(garbage_pattern, name_lower, re.IGNORECASE): return ''] *)
Fixpoint is_garbage (garbage : list regex) (name_lower : str) : bool :=
  match garbage with
  | [] => false
  | g :: rest =>
      if re_match true g name_lower then true else is_garbage rest name_lower
  end.

(** [for pattern, standard in INSTITUTION_STANDARDS.items():
       if re.match(pattern, name_lower): return standard] *)
Fixpoint find_standard (table : list (regex * str)) (name_lower : str)
    : option str :=
  match table with
  | [] => None
  | (pattern, standard) :: rest =>
      if re_match false pattern name_lower then Some standard
      else find_standard rest name_lower
  end.

(** The name after trimming, country-code removal and punctuation
    stripping (lines 117-123 of [standardize_name]). *)
Definition cleaned_name (name : str) : str :=
  strip_chars " ,;." (re_delete country_code (strip name)).

(** [name_lower = name.lower().strip()], the string the two tables are
    tested against. *)
Definition candidate (name : str) : str := strip (lower (cleaned_name name)).

(** All capitals to title case, short alphabetic words kept. *)
Definition title_case_words (name : str) : str :=
  join " " (map (fun w => if (length w <=? 3) && isalpha w then w else title w)
              (split_ws name)).

(** ["LASTNAME, FIRSTNAME"] to ["FIRSTNAME LASTNAME"]. *)
Definition reorder_person (name : str) : str :=
  if mem_c name "," && (length (split_on "," name) =? 2) then
    let parts := split_on "," name in
    let p0 := nth 0 parts [] in
    let p1 := nth 1 parts [] in
    if (length (split_ws p0) =? 1) && (length (split_ws (strip p1)) <=? 2)
    then
      let name' := strip p1 ++ py " " ++ strip p0 in
      if isupper name' then title name' else name'
    else name
  else name.

(** [standardize_name], over the two rule tables. *)
Definition standardize_with (garbage : list regex) (table : list (regex * str))
    (name : str) : str :=
  if negb (truthy name) then []
  else
    let name := cleaned_name name in
    if negb (truthy name) then []
    else
      let name_lower := strip (lower name) in
      if is_garbage garbage name_lower then []
      else
        match find_standard table name_lower with
        | Some standard => standard
        | None =>
            let name :=
              if isupper name && (4 <? length name)
              then title_case_words name else name in
            strip (reorder_person name)
        end.

Definition standardize_name : str -> str :=
  standardize_with GARBAGE_FRAGMENTS INSTITUTION_STANDARDS.

(** [norm_key = re.sub(r'[^a-z0-9]', '', p.lower())] *)
Definition norm_key (p : str) : str :=
  re_delete (compile "[^a-z0-9]") (lower p).

(** The loop of [clean_name_field]: [seen] is the Python set, [cleaned]
    the list being appended to. *)
Fixpoint name_loop (std : str -> str) (parts : list str)
    (seen : gset (list ascii)) (cleaned : list str) : list str :=
  match parts with
  | [] => cleaned
  | p :: rest =>
      let p := std p in
      if negb (truthy p) then name_loop std rest seen cleaned
      else
        let key := norm_key p in
        if truthy key && (1 <? length key) && bool_decide (key ∉ seen)
        then name_loop std rest ({[key]} ∪ seen) (cleaned ++ [p])
        else name_loop std rest seen cleaned
  end.

Definition clean_name_field_with (std : str -> str) (value : str) : str :=
  if negb (truthy value) then []
  else join "; " (name_loop std (split_on ";" value) ∅ []).

Definition clean_name_field : str -> str :=
  clean_name_field_with standardize_name.

(** *** Rows and frames *)

(** One row, with the columns of [OUTPUT_COLUMNS] in their order. *)
Record PatentRecord : Type := mkRecord {
  ResourceId : Z;
  ApplicationNumber : str;
  ApplicationDate : str;
  PatentYear : str;
  Title : str;
  Abstract : str;
  Applicants : str;
  Inventors : str;
  Owners : str;
  PatentUrl : str;
  DocumentTypeId : Z;
  DocumentTypeName : str;
  LegalStatusName : str;
  Source : str;
  ExtractedDate : str
}.

Abbreviation DataFrame := (list PatentRecord).

Definition set_ResourceId (v : Z) (r : PatentRecord) : PatentRecord :=
  mkRecord v (ApplicationNumber r) (ApplicationDate r) (PatentYear r)
    (Title r) (Abstract r) (Applicants r) (Inventors r) (Owners r)
    (PatentUrl r) (DocumentTypeId r) (DocumentTypeName r)
    (LegalStatusName r) (Source r) (ExtractedDate r).

(** [_remove_non_english]: rows whose title has a character in one of
    the ranges U+0400-U+04FF, U+4E00-U+9FFF, U+AC00-U+D7AF, U+0600-U+06FF
    are dropped (no character of the model lies that high, so every row is
    kept). *)
Definition non_english_c (c : ascii) : bool :=
  let n := N_of_ascii c in
  ((1024 <=? n) && (n <=? 1279) || (19968 <=? n) && (n <=? 40959)
   || (44032 <=? n) && (n <=? 55215) || (1536 <=? n) && (n <=? 1791))%N.
Definition _remove_non_english (df : DataFrame) : DataFrame :=
  filter (fun r => existsb non_english_c (Title r) = false) df.

(** [clean_text] of [_clean_text_fields] *)
Definition clean_text (value : str) : str :=
  if negb (truthy value) then [] else strip value.

(** [_clean_text_fields]: [Title], [Abstract], [ApplicationNumber]. *)
Definition clean_text_row (r : PatentRecord) : PatentRecord :=
  mkRecord (ResourceId r) (clean_text (ApplicationNumber r))
    (ApplicationDate r) (PatentYear r)
    (clean_text (Title r)) (clean_text (Abstract r))
    (Applicants r) (Inventors r) (Owners r)
    (PatentUrl r) (DocumentTypeId r) (DocumentTypeName r)
    (LegalStatusName r) (Source r) (ExtractedDate r).
Definition _clean_text_fields (df : DataFrame) : DataFrame :=
  map clean_text_row df.

(** [_standardize_institutions]: [Applicants], [Inventors], [Owners]. *)
Definition standardize_row (r : PatentRecord) : PatentRecord :=
  mkRecord (ResourceId r) (ApplicationNumber r)
    (ApplicationDate r) (PatentYear r) (Title r) (Abstract r)
    (clean_name_field (Applicants r)) (clean_name_field (Inventors r))
    (clean_name_field (Owners r))
    (PatentUrl r) (DocumentTypeId r) (DocumentTypeName r)
    (LegalStatusName r) (Source r) (ExtractedDate r).
Definition _standardize_institutions (df : DataFrame) : DataFrame :=
  map standardize_row df.

(** [format_date] of [_format_dates] *)
Definition format_date (d : str) : str :=
  if negb (truthy d) then []
  else
    let d := strip d in
    if (length d =? 8) && isdigit d
    then take 4 d ++ py "-" ++ take 2 (drop 4 d) ++ py "-" ++ take 2 (drop 6 d)
    else d.

(** [_format_dates]: the date is rewritten, then [PatentYear] is read off
    the rewritten column. *)
Definition format_dates_row (r : PatentRecord) : PatentRecord :=
  let date := format_date (ApplicationDate r) in
  mkRecord (ResourceId r) (ApplicationNumber r)
    date (slice_to 4 date) (Title r) (Abstract r)
    (Applicants r) (Inventors r) (Owners r)
    (PatentUrl r) (DocumentTypeId r) (DocumentTypeName r)
    (LegalStatusName r) (Source r) (ExtractedDate r).
Definition _format_dates (df : DataFrame) : DataFrame :=
  map format_dates_row df.

(** [df.drop_duplicates(subset=[key], keep='first')]: one pass over the
    rows with the set of the keys already met. *)
Fixpoint drop_duplicates_from (key : PatentRecord -> str)
    (seen : gset (list ascii)) (df : DataFrame) : DataFrame :=
  match df with
  | [] => []
  | r :: rest =>
      if bool_decide (key r ∈ seen) then drop_duplicates_from key seen rest
      else r :: drop_duplicates_from key ({[key r]} ∪ seen) rest
  end.
Definition drop_duplicates (key : PatentRecord -> str) (df : DataFrame)
    : DataFrame :=
  drop_duplicates_from key ∅ df.

(** [df['Title'].str.lower().str[:100]] *)
Definition title_norm (r : PatentRecord) : str :=
  slice_to 100 (lower (Title r)).

(** [_deduplicate] *)
Definition _deduplicate (df : DataFrame) : DataFrame :=
  let df := drop_duplicates ApplicationNumber df in
  let df := drop_duplicates title_norm df in
  df.

(** [truly_new['ResourceId'] = range(start, start + len(truly_new))].
    The identifiers are computed in [Z], as Python's [range] computes
    them; they are those of the [int64] column of the code while they
    fit it, see [ids_fit_int64] below. *)
Fixpoint assign_ids (start : Z) (df : DataFrame) : DataFrame :=
  match df with
  | [] => []
  | r :: rest => set_ResourceId start r :: assign_ids (start + 1) rest
  end.

(** The [ResourceId] step of [_add_standard_columns] on a frame that
    has no [ResourceId] column (the extractors never set one), the
    branch of [if 'ResourceId' not in df.columns] that assigns:
    [df['ResourceId'] = range(50000, 50000 + len(df))].  The function
    with its six guards is [_add_standard_columns_in] below. *)
Definition _add_standard_columns (df : DataFrame) : DataFrame :=
  assign_ids 50000 df.

(** *** [clean], on the columns of the batch

    [pd.DataFrame(patents)] has a column for every key of the dicts;
    [columns] lists them.  The steps are the ones above, each behind the
    test the source makes on [df.columns]. *)

(** [col in df.columns] *)
Definition has_col (columns : list string) (col : string) : bool :=
  bool_decide (col ∈ columns).

(** The keys of the dicts [LensExtractor._parse_patent] and
    [EPOExtractor.get_patent_details] return. *)
Definition lens_columns : list string := [
  "ApplicationNumber"; "ApplicationDate"; "PatentYear"; "Title";
  "Abstract"; "Applicants"; "Inventors"; "Owners"; "PatentUrl";
  "LegalStatusName"; "Source"; "ExtractedDate"
]%string.
Definition epo_columns : list string := [
  "ApplicationNumber"; "Title"; "Abstract"; "Applicants"; "Inventors";
  "Owners"; "ApplicationDate"; "PatentYear"; "PatentUrl"; "Source";
  "ExtractedDate"
]%string.

(** [if col in df.columns: df[col] = df[col].apply(f)] on one cell *)
Definition on_col (columns : list string) (col : string) (f : str -> str)
    (v : str) : str :=
  if has_col columns col then f v else v.

(** [_clean_text_fields] with its guards *)
Definition clean_text_row_in (columns : list string) (r : PatentRecord)
    : PatentRecord :=
  mkRecord (ResourceId r)
    (on_col columns "ApplicationNumber" clean_text (ApplicationNumber r))
    (ApplicationDate r) (PatentYear r)
    (on_col columns "Title" clean_text (Title r))
    (on_col columns "Abstract" clean_text (Abstract r))
    (Applicants r) (Inventors r) (Owners r)
    (PatentUrl r) (DocumentTypeId r) (DocumentTypeName r)
    (LegalStatusName r) (Source r) (ExtractedDate r).
Definition _clean_text_fields_in (columns : list string) (df : DataFrame)
    : DataFrame :=
  map (clean_text_row_in columns) df.

(** [_standardize_institutions] with its guards *)
Definition standardize_row_in (columns : list string) (r : PatentRecord)
    : PatentRecord :=
  mkRecord (ResourceId r) (ApplicationNumber r)
    (ApplicationDate r) (PatentYear r) (Title r) (Abstract r)
    (on_col columns "Applicants" clean_name_field (Applicants r))
    (on_col columns "Inventors" clean_name_field (Inventors r))
    (on_col columns "Owners" clean_name_field (Owners r))
    (PatentUrl r) (DocumentTypeId r) (DocumentTypeName r)
    (LegalStatusName r) (Source r) (ExtractedDate r).
Definition _standardize_institutions_in (columns : list string)
    (df : DataFrame) : DataFrame :=
  map (standardize_row_in columns) df.

(** [_format_dates] with its guard; the assignment to [df['PatentYear']]
    makes that column one of the frame. *)
Definition _format_dates_in (columns : list string) (df : DataFrame)
    : DataFrame :=
  if has_col columns "ApplicationDate" then _format_dates df else df.
Definition columns_after_dates (columns : list string) : list string :=
  if has_col columns "ApplicationDate"
  then ("PatentYear"%string :: columns) else columns.

(** [_add_standard_columns]: each of the six columns is added when the
    frame has none of that name, and left as it is otherwise.  [today] is
    [datetime.now().strftime('%Y-%m-%d')]. *)
Definition add_standard_row (columns : list string) (today : str)
    (r : PatentRecord) : PatentRecord :=
  let absent col := negb (has_col columns col) in
  mkRecord (ResourceId r) (ApplicationNumber r)
    (ApplicationDate r) (PatentYear r) (Title r) (Abstract r)
    (Applicants r) (Inventors r) (Owners r) (PatentUrl r)
    (if absent "DocumentTypeId"%string then 3%Z else DocumentTypeId r)
    (if absent "DocumentTypeName"%string then py "Patent Application"
     else DocumentTypeName r)
    (if absent "LegalStatusName"%string then py "PENDING"
     else LegalStatusName r)
    (if absent "Source"%string then py "EPO" else Source r)
    (if absent "ExtractedDate"%string then today else ExtractedDate r).
Definition _add_standard_columns_in (columns : list string) (today : str)
    (df : DataFrame) : DataFrame :=
  let df :=
    if has_col columns "ResourceId" then df else _add_standard_columns df in
  map (add_standard_row columns today) df.

(** [_ensure_columns]: a column of [OUTPUT_COLUMNS] the frame still
    lacks is added with [''] in every row.  It runs after
    [_add_standard_columns], so the six columns of that step are there. *)
Definition ensure_row (columns : list string) (r : PatentRecord)
    : PatentRecord :=
  let cell col (v : str) := if has_col columns col then v else [] in
  mkRecord (ResourceId r)
    (cell "ApplicationNumber"%string (ApplicationNumber r))
    (cell "ApplicationDate"%string (ApplicationDate r))
    (cell "PatentYear"%string (PatentYear r))
    (cell "Title"%string (Title r))
    (cell "Abstract"%string (Abstract r))
    (cell "Applicants"%string (Applicants r))
    (cell "Inventors"%string (Inventors r))
    (cell "Owners"%string (Owners r))
    (cell "PatentUrl"%string (PatentUrl r))
    (DocumentTypeId r) (DocumentTypeName r)
    (LegalStatusName r) (Source r) (ExtractedDate r).
Definition _ensure_columns (columns : list string) (df : DataFrame)
    : DataFrame :=
  map (ensure_row columns) df.

(** [clean]: the steps in their order.  An empty list of dicts makes a
    frame without columns.  [_remove_non_english] and [_deduplicate]
    index [df['Title']], and [_deduplicate] names [ApplicationNumber] as
    the subset of [drop_duplicates], without a test: a frame that lacks
    one of the two raises [KeyError], here [None]. *)
Definition clean (columns : list string) (today : str) (patents : DataFrame)
    : option DataFrame :=
  let columns := match patents with [] => [] | _ :: _ => columns end in
  if negb (has_col columns "Title") then None
  else
    let df := _remove_non_english patents in
    let df := _clean_text_fields_in columns df in
    let df := _standardize_institutions_in columns df in
    let df := _format_dates_in columns df in
    let columns := columns_after_dates columns in
    if negb (has_col columns "ApplicationNumber") then None
    else
      let df := _deduplicate df in
      let df := _add_standard_columns_in columns today df in
      let df := _ensure_columns columns df in
      Some df.

(** [normalize_app_num] of [merge_with_existing] *)
Definition normalize_app_num (x : str) : str :=
  strip (upper (remove_c "-" (remove_c "." (remove_c " " x)))).

Definition _norm_app (r : PatentRecord) : str :=
  normalize_app_num (ApplicationNumber r).
Definition _norm_title (r : PatentRecord) : str :=
  slice_to 100 (lower (Title r)).

(** The existing frame as the comparison sees it: standardised and
    trimmed first. *)
Definition restandardize (df : DataFrame) : DataFrame :=
  _clean_text_fields (_standardize_institutions df).

Definition existing_apps (existing : DataFrame) : gset (list ascii) :=
  list_to_set (map _norm_app (restandardize existing)).
Definition existing_titles (existing : DataFrame) : gset (list ascii) :=
  list_to_set (map _norm_title (restandardize existing)).

(** [truly_new = new_df[mask]] with
    [mask = ~(norm_app.isin(existing_apps) | norm_title.isin(existing_titles))] *)
Definition truly_new (new_df existing_df : DataFrame) : DataFrame :=
  filter (fun r => ¬ (_norm_app r ∈ existing_apps existing_df
                      ∨ _norm_title r ∈ existing_titles existing_df)) new_df.

(** [existing_df['ResourceId'].max()] of a non-empty frame, [50000] for
    an empty one. *)
Definition max_id (existing : DataFrame) : Z :=
  match existing with
  | [] => 50000
  | r :: rest => foldl Z.max (ResourceId r) (map ResourceId rest)
  end.

(** [merge_with_existing] *)
Definition merge_with_existing (new_df existing_df : DataFrame) : DataFrame :=
  let existing := restandardize existing_df in
  let fresh := truly_new new_df existing_df in
  let fresh := assign_ids (max_id existing + 1) fresh in
  let combined := existing ++ fresh in
  restandardize combined.

(** The count of added rows, [len(truly_new)] in the log of the merge and
    [len(merged_df) - initial_count] in [app.py]. *)
Definition new_count (new_df existing_df : DataFrame) : nat :=
  length (truly_new new_df existing_df).
Definition new_added (new_df existing_df : DataFrame) : Z :=
  Z.of_nat (length (merge_with_existing new_df existing_df))
  - Z.of_nat (length existing_df).

(** The range in which the identifiers of a merge are those of the code.
    [ResourceId] is an [int64] column: the existing identifiers lie in
    its range, and [range(int(max_id) + 1, int(max_id) + 1 + len(truly_new))]
    becomes an [int64] column when its two bounds do.  Past that bound
    the new column, and with it the concatenated one, is of another
    type and the identifiers of the existing rows are converted with
    it. *)
Definition int64_max : Z := 9223372036854775807.
Definition int64_min : Z := -9223372036854775808.
Definition ids_fit_int64 (new_df existing_df : DataFrame) : Prop :=
  Forall (fun r => (int64_min <= ResourceId r <= int64_max)%Z) existing_df
  /\ (max_id (restandardize existing_df) + 1
      + Z.of_nat (new_count new_df existing_df) <= int64_max)%Z.

(** ** The organisation test ([src/extractors/lens_extractor.py]) *)

(** [ORGANIZATION_KEYWORDS] and [QATAR_ORGANIZATIONS] of [src/config.py] *)
Definition ORGANIZATION_KEYWORDS : list string := [
    "university"; "univ"; "college"; "institute"; "institution";
    "foundation"; "corporation"; "corp"; "company"; "co"; "hospital";
    "medical"; "medicine"; "clinic"; "health"; "research"; "laboratory";
    "lab"; "center"; "centre"; "authority"; "ministry"; "government";
    "council"; "bank"; "petroleum"; "oil"; "gas"; "energy"; "qatar"; "qf";
    "qu"; "hbku"; "hmc"; "sidra"; "texas a&m"; "weill cornell";
    "carnegie mellon"; "northwestern"; "georgetown";
    "virginia commonwealth"; "north atlantic"; "iberdrola"; "maersk";
    "exxon"; "shell"; "total"; "llc"; "ltd"; "inc"; "plc"; "sa"; "as"; "ag";
    "gmbh"; "bv"; "nv"; "spa"; "srl"
  ]%string.

Definition QATAR_ORGANIZATIONS : list string := [
    "Qatar Foundation for Education, Science and Community Development";
    "Qatar University"; "Hamad Medical Corporation"; "Sidra Medicine";
    "Hamad Bin Khalifa University"; "Texas A&M University at Qatar";
    "Weill Cornell Medicine-Qatar"; "Carnegie Mellon University in Qatar";
    "Northwestern University in Qatar"; "Georgetown University in Qatar";
    "Virginia Commonwealth University in Qatar";
    "College of the North Atlantic Qatar";
    "University of Doha for Science and Technology"; "Qatar Petroleum";
    "Qatar Energy"; "Qatar National Research Fund";
    "Qatar Computing Research Institute";
    "Qatar Environment and Energy Research Institute";
    "Qatar Biomedical Research Institute"; "Qatar Biobank";
    "Qatar Genome Programme"; "Qatar Investment Authority";
    "Qatar Football Association";
    "Qatar Ministry of Education and Higher Education";
    "Maersk Oil Qatar AS"; "Iberdrola QSTP LLC"; "Anti-Doping Lab Qatar";
    "Qatar Fertiliser Company"; "Qatar Airways"; "Qatar National Bank";
    "Ooredoo"; "Kahramaa"; "Ashghal"; "Qatar Rail"; "Qatar Museums";
    "Qatar Science and Technology Park"; "QSTP"
  ]%string.

Definition org_patterns : list string :=
  ["&"; "and"; ","; "."; "of"; "for"; "the"]%string.

(** [LensExtractor._is_organization] *)
Definition _is_organization (name : str) : bool :=
  if negb (truthy name) then false
  else
    let name_lower := strip (lower name) in
    if existsb (fun keyword : string => contains keyword name_lower)
         ORGANIZATION_KEYWORDS
    then true
    else if existsb (fun org : string =>
                       contains (lower org) name_lower
                       || contains name_lower (lower org))
              QATAR_ORGANIZATIONS
    then true
    else
      let words := split_ws name in
      if (2 <=? length words) && (length words <=? 4)
         && forallb (fun w => length w <? 15) words
         && negb (existsb is_digit_c name)
         && negb (existsb (fun x : string => contains x name_lower) org_patterns)
         && negb (contains "qatar" name_lower)
      then false
      else true.

(** [s.endswith(suffix)] *)
Definition endswith (s suffix : str) : bool := prefixb (rev suffix) (rev s).

Definition foreign_suffixes : list string :=
  [" pty ltd"; " pty. ltd"; " gmbh"; " ag"; " b.v."; " bv"; " a.s."; " s.a.";
   " spa"; " srl"]%string.

Definition foreign_companies : list string :=
  ["toyota"; "honda"; "hyundai"; "ford"; "general motors"; "gm ";
   "volkswagen"; "bmw"; "mercedes"; "nissan"; "mazda"; "subaru";
   "samsung"; "sony"; "lg electronics"; "panasonic"; "philips";
   "microsoft"; "google"; "apple"; "amazon"; "meta"; "intel"; "ibm";
   "huawei"; "xiaomi"; "lenovo"; "dell"; "hp ";
   "boeing"; "airbus"; "siemens"; "honeywell"; "ge "; "general electric";
   "lockheed"; "raytheon"; "northrop";
   "exxon"; "chevron"; "bp "; "total "; "conocophillips";
   "pfizer"; "novartis"; "roche"; "merck"; "johnson & johnson"; "j&j";
   "glaxo"; "astrazeneca"; "sanofi"; "bayer";
   "purdue"; "mit "; "stanford"; "harvard"; "oxford"; "cambridge";
   "yale"; "princeton"; "berkeley"; "caltech"; "ucla"; "eth zurich"]%string.

Definition qatar_identifiers : list string :=
  ["qatar"; "qatari"; "doha"; "hbku"; "hmc"; "sidra"; "hamad bin khalifa";
   "aspire zone"; "kahramaa"; "ashghal"; "ooredoo";
   "qstp"; "qnrf"; "qcri"; "qeeri"; "qbri"]%string.

Definition edu_city_names : list string :=
  ["texas a&m"; "weill cornell"; "carnegie mellon"; "northwestern";
   "georgetown"; "virginia commonwealth"; "college of the north atlantic";
   "north atlantic"]%string.

(** The test both exclusion loops repeat: neither "qatar" nor "doha" in
    the lower-cased name. *)
Definition no_qatar_no_doha (name_lower : str) : bool :=
  negb (contains "qatar" name_lower) && negb (contains "doha" name_lower).

(** [LensExtractor._is_qatar_organization]; each loop returns at the
    first element that decides. *)
Definition _is_qatar_organization (name residence country : str) : bool :=
  if negb (truthy name) then false
  else if negb (_is_organization name) then false
  else
    let name_lower := strip (lower name) in
    if existsb (fun suffix : string =>
                  endswith name_lower (strip suffix) || contains suffix name_lower)
         foreign_suffixes
       && no_qatar_no_doha name_lower
    then false
    else if existsb (fun company : string => contains company name_lower)
              foreign_companies
            && no_qatar_no_doha name_lower
    then false
    else if existsb (fun identifier : string => contains identifier name_lower)
              qatar_identifiers
    then true
    else if existsb (fun edu_name : string => contains edu_name name_lower)
              edu_city_names
    then bool_decide (residence =@{list ascii} py "QA")
         || bool_decide (country =@{list ascii} py "QA")
    else existsb (fun org : string =>
                    contains (lower org) name_lower
                    || contains name_lower (lower org))
           QATAR_ORGANIZATIONS.

(** *** Lens records

    The part of a Lens API record the extractor reads, with the defaults
    of its [.get] calls already applied: an absent string is [''], an
    absent list is empty.  [extracted_value] is
    [extracted_name.get('value', '')], or [''] when [extracted_name] is not
    a dict. *)
Module Lens.

Record Party : Type := mkParty {
  extracted_value : str;
  residence : str;
  extracted_country : str
}.

Record Text : Type := mkText {
  lang : str;
  text : str
}.

Record Raw : Type := mkRaw {
  jurisdiction : str;
  doc_number : str;
  kind : str;
  invention_title : list Text;
  abstract : list Text;
  applicants : list Party;
  inventors : list Party;
  owners_all : list Party;
  date_published : str;
  patent_status : str;
  lens_id : str
}.

(** The dict [_parse_patent] returns. *)
Record Parsed : Type := mkParsed {
  ApplicationNumber : str;
  ApplicationDate : str;
  PatentYear : str;
  Title : str;
  Abstract : str;
  Applicants : str;
  Inventors : str;
  Owners : str;
  PatentUrl : str;
  LegalStatusName : str;
  Source : str;
  ExtractedDate : str
}.

(** [_has_qatar_organization_applicant] *)
Definition _has_qatar_organization_applicant (patent : Raw) : bool :=
  existsb (fun app => _is_qatar_organization (extracted_value app)
                        (residence app) "")
    (applicants patent).

(** [for t in ts: if t.get('lang') == 'en': x = t.get('text', ''); break] *)
Fixpoint first_english (ts : list Text) : str :=
  match ts with
  | [] => []
  | t :: rest =>
      if bool_decide (lang t =@{list ascii} py "en") then text t
      else first_english rest
  end.

(** [_parse_patent]; [today] is [datetime.now().strftime('%Y-%m-%d')]. *)
Definition _parse_patent (today : str) (patent : Raw) : option Parsed :=
  let app_number :=
    strip (jurisdiction patent ++ py " " ++ doc_number patent ++ py " "
           ++ kind patent) in
  let titles := invention_title patent in
  let title := match titles with [] => [] | _ => first_english titles end in
  if match titles with [] => false | _ => negb (truthy title) end then None
  else
    let abstracts := abstract patent in
    let abstract0 := first_english abstracts in
    let abstract1 :=
      if negb (truthy abstract0)
      then match abstracts with [] => abstract0 | a :: _ => text a end
      else abstract0 in
    let names_of (ps : list Party) (keep : Party -> bool) : list str :=
      map extracted_value
        (List.filter (fun q => truthy (extracted_value q) && keep q) ps) in
    let applicants_ :=
      names_of (applicants patent)
        (fun q => _is_qatar_organization (extracted_value q) (residence q) "") in
    let inventors_ := names_of (inventors patent) (fun _ => true) in
    let owners_ :=
      names_of (owners_all patent)
        (fun q => _is_qatar_organization (extracted_value q) ""
                    (extracted_country q)) in
    let date := date_published patent in
    let year :=
      if truthy date then (if 4 <=? length date then take 4 date else [])
      else [] in
    Some (mkParsed app_number date year title
            (if truthy abstract1 then take 2000 abstract1 else [])
            (join "; " applicants_)
            (join "; " inventors_)
            (match owners_ with
             | [] => join "; " applicants_
             | _ => join "; " owners_
             end)
            (if truthy (lens_id patent)
             then py "https://www.lens.org/lens/patent/" ++ lens_id patent
             else [])
            (patent_status patent)
            "Lens"
            today).

(** [extract_all], from the records the search returned: keep the
    patents with a Qatar organisation among the applicants, parse them, keep
    the parsed ones that have a title. *)
Definition extract_all (today : str) (raw_patents : list Raw) : list Parsed :=
  let org_patents :=
    List.filter _has_qatar_organization_applicant raw_patents in
  omap (fun raw =>
          match _parse_patent today raw with
          | Some parsed => if truthy (Title parsed) then Some parsed else None
          | None => None
          end)
    org_patents.

End Lens.

(** ** The run history ([src/utils/state.py]) *)

Module State.

(** A [run_info] dict. *)
Record RunInfo : Type := mkRun {
  timestamp : str;
  patents_searched : Z;
  patents_extracted : Z;
  new_patents_added : Z;
  duplicates_removed : Z;
  total_after : Z;
  source : string
}.

(** The [stats] argument of [record_run]: a key may be missing. *)
Record Stats : Type := mkStats {
  s_searched : option Z;
  s_extracted : option Z;
  s_new_added : option Z;
  s_duplicates_removed : option Z;
  s_total_after : option Z;
  s_source : option string
}.

(** [self.state] *)
Record PipelineState : Type := mkState {
  last_run : option str;
  runs : list RunInfo;
  total_patents : Z;
  sources : gmap string Z
}.

(** The default state of [_load_state]. *)
Definition default_state : PipelineState := mkState None [] 0 ∅.

(** [l[-n:]] for a positive [n] *)
Definition last_n {A} (n : nat) (l : list A) : list A :=
  drop (length l - n) l.

(** [record_run]; [now] is [datetime.now().isoformat()].  The write to
    the state file is left out. *)
Definition record_run (now : str) (stats : Stats) (st : PipelineState)
    : PipelineState :=
  let run_info :=
    mkRun now
      (default 0%Z (s_searched stats))
      (default 0%Z (s_extracted stats))
      (default 0%Z (s_new_added stats))
      (default 0%Z (s_duplicates_removed stats))
      (default 0%Z (s_total_after stats))
      (default "unknown"%string (s_source stats)) in
  let runs1 := runs st ++ [run_info] in
  let src := source run_info in
  let sources0 :=
    match sources st !! src with
    | None => <[src := 0%Z]> (sources st)
    | Some _ => sources st
    end in
  let sources1 :=
    <[src := (default 0%Z (sources0 !! src) + new_patents_added run_info)%Z]>
      sources0 in
  let runs2 := if 100 <? length runs1 then last_n 100 runs1 else runs1 in
  mkState (Some (timestamp run_info)) runs2 (total_after run_info) sources1.

(** [get_last_run] *)
Definition get_last_run (st : PipelineState) : option RunInfo :=
  match runs st with
  | [] => None
  | _ => last (runs st)
  end.

(** [get_run_history]: [runs[-limit:][::-1]] for an integer [limit]; a
    slice from [-0] is a slice from the start, and a negative [limit] makes
    the start a positive offset. *)
Definition get_run_history (limit : Z) (st : PipelineState) : list RunInfo :=
  let l := runs st in
  let tail :=
    if (0 <? limit)%Z then last_n (Z.to_nat limit) l
    else drop (Z.to_nat (- limit)) l in
  rev tail.

(** [get_summary]: last run, number of runs, total, sources. *)
Definition get_summary (st : PipelineState)
    : option str * nat * Z * gmap string Z :=
  (last_run st, length (runs st), total_patents st, sources st).

(** [clear_history] *)
Definition clear_history (st : PipelineState) : PipelineState :=
  mkState (last_run st) [] (total_patents st) (sources st).

End State.

(** ** The update step of [src/app.py]

    Lines 201-223: with no extracted patent the step stops; otherwise
    the patents are cleaned, then merged with the uploaded file when
    there is one.  The result is the merged frame with the two counts of
    the report, [new_added] and [total_after]; [None] is the step that
    stopped or that [clean] ended with an exception. *)
Definition update (columns : list string) (today : str)
    (all_patents : DataFrame) (existing_df : option DataFrame)
    : option (DataFrame * Z * Z) :=
  match all_patents with
  | [] => None
  | _ :: _ =>
      match clean columns today all_patents with
      | None => None
      | Some cleaned_df =>
          match existing_df with
          | Some existing =>
              let merged_df := merge_with_existing cleaned_df existing in
              Some (merged_df,
                    (Z.of_nat (length merged_df)
                     - Z.of_nat (length existing))%Z,
                    Z.of_nat (length merged_df))
          | None =>
              Some (cleaned_df, Z.of_nat (length cleaned_df),
                    Z.of_nat (length cleaned_df))
          end
      end
  end.

(** ** Reference definitions

    Readings of the specification's words, against which the functions
    above are compared, and helpers of the statements below. *)

(** One row through [_standardize_institutions] and then
    [_clean_text_fields]. *)
Definition restandardize_row (r : PatentRecord) : PatentRecord :=
  clean_text_row (standardize_row r).

(** The application-number key in the words of the specification:
    upper-cased, with spaces, periods and hyphens removed. *)
Definition app_key_chars (x : str) : str :=
  upper (List.filter (fun c => negb (mem_c " .-" c)) x).

(** The rows that are the first with their key, in their order: the
    reference reading of "first occurrence wins" against which the passes
    over a [seen] set are compared. *)
Fixpoint keep_first {A} (key : A -> list ascii) (l : list A) : list A :=
  match l with
  | [] => []
  | r :: rest => r :: filter (fun x => key x <> key r) (keep_first key rest)
  end.

(** [standardize_field] as the specification words it. *)
Definition standardize_field_spec (raw_field : str) : str :=
  join "; "
    (keep_first (fun p => List.filter is_alnum_c (lower p))
       (filter (fun p => 2 <= length (List.filter is_alnum_c (lower p)))
          (filter (fun p => p <> [])
             (standardize_name <$> split_on ";" raw_field)))).

(** A string that lower-casing leaves as it is. *)
Definition is_lowered (s : str) : Prop := Forall (fun c => lower_c c = c) s.

(** A row with the given ApplicationNumber and Title, for the examples. *)
Definition row (app title : string) : PatentRecord :=
  mkRecord 0 app [] [] title [] [] [] [] [] 3 [] [] [] [].

(** An existing row [e] and what a merge makes of it, [m]: the name
    fields standardised and the three text fields trimmed, by the pass at
    the start of the merge and again by the pass at its end; every other
    column as it was. *)
Definition restandardized (e m : PatentRecord) : Prop :=
  ResourceId m = ResourceId e
  /\ ApplicationNumber m = strip (ApplicationNumber e)
  /\ ApplicationDate m = ApplicationDate e
  /\ PatentYear m = PatentYear e
  /\ Title m = strip (Title e)
  /\ Abstract m = strip (Abstract e)
  /\ Applicants m = clean_name_field (clean_name_field (Applicants e))
  /\ Inventors m = clean_name_field (clean_name_field (Inventors e))
  /\ Owners m = clean_name_field (clean_name_field (Owners e))
  /\ PatentUrl m = PatentUrl e
  /\ DocumentTypeId m = DocumentTypeId e
  /\ DocumentTypeName m = DocumentTypeName e
  /\ LegalStatusName m = LegalStatusName e
  /\ Source m = Source e
  /\ ExtractedDate m = ExtractedDate e.

(** The rows of the batch as they reach [_deduplicate]. *)
Definition cleaned_steps (columns : list string) (patents : DataFrame)
    : DataFrame :=
  _format_dates_in columns
    (_standardize_institutions_in columns
       (_clean_text_fields_in columns (_remove_non_english patents))).

(** A row whose three text cells are trimmed. *)
Definition trimmed_row (r : PatentRecord) : Prop :=
  strip (Title r) = Title r
  /\ strip (Abstract r) = Abstract r
  /\ strip (ApplicationNumber r) = ApplicationNumber r.

(** The criterion of a new record in the words of the specification:
    neither the application-number key (upper-cased, with spaces, periods
    and hyphens removed) nor the title key (the lower-cased first 100
    characters of the title) of the record is among the keys of the
    existing dataset. *)
Definition spec_app_key (r : PatentRecord) : str :=
  app_key_chars (ApplicationNumber r).
Definition spec_title_key (r : PatentRecord) : str :=
  lower (slice_to 100 (Title r)).
Definition spec_truly_new (existing_df : DataFrame) (r : PatentRecord)
    : bool :=
  negb (bool_decide (spec_app_key r ∈ spec_app_key <$> existing_df))
  && negb (bool_decide (spec_title_key r ∈ spec_title_key <$> existing_df)).

(** A sequence of calls of [record_run], each with its time and its
    [stats], and what the calls with a given source added in all. *)
Definition replay (events : list (str * State.Stats))
    (st : State.PipelineState) : State.PipelineState :=
  foldl (fun st e => State.record_run (fst e) (snd e) st) st events.

Definition stats_source (stats : State.Stats) : string :=
  default "unknown"%string (State.s_source stats).

Fixpoint added_for (src : string) (events : list (str * State.Stats)) : Z :=
  match events with
  | [] => 0
  | e :: rest =>
      ((if decide (stats_source (snd e) = src)
        then default 0 (State.s_new_added (snd e)) else 0)
       + added_for src rest)%Z
  end.

(** * Properties *)

(** ** The model on concrete inputs *)

Example parse_garbage6 :
  parse "^(and|&)\s+\w+.*$" =
  Some (Seq Bol (Seq (Alt (Seq (Chr "a") (Seq (Chr "n") (Seq (Chr "d") Eps)))
                          (Seq (Chr "&") Eps))
                (Seq (Plus Space) (Seq (Plus Word) (Seq (Star Any) (Seq Eol Eps)))))).
Proof. reflexivity. Qed.

Example parse_country_code :
  parse "\s*\[[A-Z]{2}\]\s*" =
  Some (Seq (Star Space)
         (Seq (Chr "[")
            (Seq (Seq (Class false [("A", "Z")])
                    (Seq (Class false [("A", "Z")]) Eps))
               (Seq (Chr "]") (Seq (Star Space) Eps))))%char).
Proof. reflexivity. Qed.

Example match_ex1 :
  re_match false (compile "qatar\s*found.*education.*science.*")
    "qatar found. for education, science" = true.
Proof. vm_compute. reflexivity. Qed.

Example delete_ex1 :
  re_delete (compile "\s*\[[A-Z]{2}\]\s*") "ACME [US] Corp [qa] x  [GB]" =
  py "ACMECorp [qa] x".
Proof. vm_compute. reflexivity. Qed.

Example standardize_ex1 :
  standardize_name "QATAR FOUND. FOR EDUCATION, SCIENCE" =
  py "Qatar Foundation for Education, Science and Community Development".
Proof. vm_compute. reflexivity. Qed.

Example standardize_ex2 : standardize_name "SMITH, JOHN [US]" = py "John Smith".
Proof. vm_compute. reflexivity. Qed.

Example standardize_ex3 : standardize_name " and Community Development;" = [].
Proof. vm_compute. reflexivity. Qed.

Example standardize_ex4 : standardize_name "IBM RESEARCH GMBH." = py "IBM Research Gmbh".
Proof. vm_compute. reflexivity. Qed.

Example clean_name_field_ex1 :
  clean_name_field "ACME Corp; acme corp; ACME CORP." = py "ACME Corp".
Proof. vm_compute. reflexivity. Qed.

Example is_organization_ex1 : _is_organization "JOHN SMITH" = false.
Proof. vm_compute. reflexivity. Qed.

Example is_organization_ex2 : _is_organization "Sidra Medicine" = true.
Proof. vm_compute. reflexivity. Qed.

(** ** Characters and strings *)

Lemma ascii_all (P : ascii -> bool) :
  forallb P (map ascii_of_nat (seq 0 256)) = true -> forall c, P c = true.
Proof.
  intros H c. rewrite forallb_forall in H.
  rewrite <- (ascii_nat_embedding c). apply H.
  apply in_map, in_seq. pose proof (nat_ascii_bounded c). lia.
Qed.

Lemma lower_c_idem c : lower_c (lower_c c) = lower_c c.
Proof.
  apply Ascii.eqb_eq. revert c.
  apply (ascii_all (fun c => Ascii.eqb (lower_c (lower_c c)) (lower_c c))).
  vm_compute. reflexivity.
Qed.

Lemma upper_c_space c : isspace_c c = true -> upper_c c = c.
Proof.
  intros H. apply Ascii.eqb_eq. revert c H.
  assert (forall c, implb (isspace_c c) (Ascii.eqb (upper_c c) c) = true) as A.
  { apply ascii_all. vm_compute. reflexivity. }
  intros c H. specialize (A c). rewrite H in A. exact A.
Qed.

Lemma lower_length s : length (lower s) = length s.
Proof. apply length_map. Qed.

(** Lower-casing and slicing commute: "the lower-cased first [n]
    characters" can be read either way. *)
Lemma lower_slice n s : slice_to n (lower s) = lower (slice_to n s).
Proof. unfold slice_to, lower. symmetry. apply (fmap_take lower_c). Qed.

Section Strip.
Variable p : ascii -> bool.

Lemma lstrip_by_app a b :
  lstrip_by p (a ++ b) =
  if forallb p a then lstrip_by p b else lstrip_by p a ++ b.
Proof.
  induction a as [|c a IH]; simpl; [reflexivity|].
  destruct (p c); simpl; [exact IH | reflexivity].
Qed.

Lemma lstrip_by_all a : forallb p a = true -> lstrip_by p a = [].
Proof.
  induction a as [|c a IH]; simpl; [reflexivity|].
  destruct (p c); simpl; [exact IH | discriminate].
Qed.

Lemma forallb_rev (a : str) : forallb p (rev a) = forallb p a.
Proof.
  induction a as [|c a IH]; simpl; [reflexivity|].
  rewrite forallb_app, IH. simpl. rewrite andb_true_r. apply andb_comm.
Qed.

(** [rstrip] read from the left. *)
Lemma rstrip_by_cons c t :
  rstrip_by p (c :: t) =
  if forallb p t then (if p c then [] else [c]) else c :: rstrip_by p t.
Proof.
  unfold rstrip_by. simpl. rewrite lstrip_by_app, forallb_rev.
  destruct (forallb p t); simpl.
  - destruct (p c); reflexivity.
  - rewrite rev_app_distr. reflexivity.
Qed.

Lemma rstrip_by_all a : forallb p a = true -> rstrip_by p a = [].
Proof.
  intros H. unfold rstrip_by. rewrite lstrip_by_all; [reflexivity|].
  rewrite forallb_rev. exact H.
Qed.

Lemma lstrip_rstrip_comm s :
  lstrip_by p (rstrip_by p s) = rstrip_by p (lstrip_by p s).
Proof.
  induction s as [|c t IH]; [reflexivity|].
  rewrite rstrip_by_cons. simpl.
  destruct (forallb p t) eqn:Ht, (p c) eqn:Hc; simpl; rewrite ?Hc.
  - rewrite lstrip_by_all by assumption. reflexivity.
  - rewrite rstrip_by_cons, Ht, Hc. reflexivity.
  - exact IH.
  - rewrite rstrip_by_cons, Ht. reflexivity.
Qed.

Lemma lstrip_by_idem s : lstrip_by p (lstrip_by p s) = lstrip_by p s.
Proof.
  induction s as [|c t IH]; [reflexivity|]. simpl.
  destruct (p c) eqn:Hc; [exact IH | simpl; rewrite Hc; reflexivity].
Qed.

Lemma rstrip_by_idem s : rstrip_by p (rstrip_by p s) = rstrip_by p s.
Proof.
  unfold rstrip_by. rewrite rev_involutive, lstrip_by_idem. reflexivity.
Qed.

Lemma strip_by_idem s : strip_by p (strip_by p s) = strip_by p s.
Proof.
  unfold strip_by.
  rewrite lstrip_rstrip_comm, lstrip_by_idem, rstrip_by_idem. reflexivity.
Qed.

(** A character-wise rewriting [f] that sends a stripped character to
    stripped characters cannot tell whether its argument was stripped
    beforehand. *)
Section Through.
Variable f : str -> str.
Hypothesis f_cons : forall c t, f (c :: t) = f [c] ++ f t.
Hypothesis f_rev : forall s, f (rev s) = rev (f s).
Hypothesis f_keeps : forall c, p c = true -> forallb p (f [c]) = true.

Lemma lstrip_through s :
  lstrip_by p (f (lstrip_by p s)) = lstrip_by p (f s).
Proof.
  induction s as [|c t IH]; [reflexivity|]. simpl.
  destruct (p c) eqn:Hc; [|reflexivity].
  rewrite IH, (f_cons c t), lstrip_by_app, (f_keeps c Hc). reflexivity.
Qed.

Lemma rstrip_through s :
  rstrip_by p (f (rstrip_by p s)) = rstrip_by p (f s).
Proof.
  unfold rstrip_by.
  rewrite f_rev, rev_involutive, lstrip_through, f_rev. reflexivity.
Qed.

Lemma strip_through s :
  strip_by p (f (strip_by p s)) = strip_by p (f s).
Proof.
  unfold strip_by.
  rewrite <- (lstrip_rstrip_comm (f _)), rstrip_through.
  rewrite lstrip_rstrip_comm, lstrip_through. reflexivity.
Qed.
End Through.
End Strip.

Lemma strip_idem s : strip (strip s) = strip s.
Proof. apply strip_by_idem. Qed.

Lemma clean_text_strip v : clean_text v = strip v.
Proof. destruct v; reflexivity. Qed.

Lemma clean_text_idem v : clean_text (clean_text v) = clean_text v.
Proof. rewrite !clean_text_strip. apply strip_idem. Qed.

(** The key of an application number does not see a previous trimming. *)
Lemma normalize_app_num_strip x :
  normalize_app_num (strip x) = normalize_app_num x.
Proof.
  unfold normalize_app_num, strip.
  apply (strip_through isspace_c
           (fun s => upper (remove_c "-" (remove_c "." (remove_c " " s))))).
  - intros c t. unfold upper, remove_c. simpl.
    repeat (match goal with |- context [if ?b then _ else _] => destruct b end;
            simpl); reflexivity.
  - intros s. unfold upper, remove_c.
    rewrite !List.filter_rev, map_rev. reflexivity.
  - intros c Hc. unfold upper, remove_c. simpl.
    repeat (match goal with |- context [if ?b then _ else _] => destruct b end;
            simpl); try reflexivity.
    rewrite (upper_c_space c Hc), Hc. reflexivity.
Qed.

Lemma normalize_app_num_clean_text x :
  normalize_app_num (clean_text x) = normalize_app_num x.
Proof. rewrite clean_text_strip. apply normalize_app_num_strip. Qed.

(** ** The merge *)

Lemma restandardize_map df : restandardize df = map restandardize_row df.
Proof.
  unfold restandardize, _clean_text_fields, _standardize_institutions.
  rewrite List.map_map. reflexivity.
Qed.

Lemma restandardize_app a b :
  restandardize (a ++ b) = restandardize a ++ restandardize b.
Proof. rewrite !restandardize_map. apply map_app. Qed.

Lemma restandardize_length df : length (restandardize df) = length df.
Proof. rewrite restandardize_map. apply length_map. Qed.

Lemma restandardize_ResourceId r : ResourceId (restandardize_row r) = ResourceId r.
Proof. reflexivity. Qed.

Lemma restandardize_norm_app r : _norm_app (restandardize_row r) = _norm_app r.
Proof. unfold _norm_app. simpl. apply normalize_app_num_clean_text. Qed.

Lemma restandardize_norm_title_idem r :
  _norm_title (restandardize_row (restandardize_row r)) =
  _norm_title (restandardize_row r).
Proof. unfold _norm_title. simpl. rewrite clean_text_idem. reflexivity. Qed.

Lemma assign_ids_length start df : length (assign_ids start df) = length df.
Proof.
  revert start. induction df as [|r df IH]; intros start; simpl;
    [reflexivity | rewrite IH; reflexivity].
Qed.

(** The identifiers handed out are [start], [start + 1], ... *)
Lemma assign_ids_ResourceId start df :
  map ResourceId (assign_ids start df) =
  map (fun i => (start + Z.of_nat i)%Z) (seq 0 (length df)).
Proof.
  revert start. induction df as [|r df IH]; intros start; [reflexivity|].
  cbn [assign_ids map length seq]. rewrite IH, <- seq_shift, List.map_map.
  f_equal; [simpl; lia|]. apply map_ext. intros i. lia.
Qed.

(** Assigning identifiers changes no other column. *)
Lemma assign_ids_elem start df r :
  r ∈ df -> exists v, set_ResourceId v r ∈ assign_ids start df.
Proof.
  revert start. induction df as [|x df IH]; intros start Hr.
  - inversion Hr.
  - apply elem_of_cons in Hr as [->|Hr].
    + exists start. simpl. apply elem_of_cons. left. reflexivity.
    + destruct (IH (start + 1)%Z Hr) as [v Hv]. exists v. simpl.
      apply elem_of_cons. right. exact Hv.
Qed.

Lemma elem_existing_apps k existing :
  k ∈ existing_apps existing <->
  exists e, e ∈ restandardize existing /\ _norm_app e = k.
Proof.
  unfold existing_apps. rewrite elem_of_list_to_set, list_elem_of_In, in_map_iff.
  split; intros (e & H1 & H2); exists e.
  - split; [apply list_elem_of_In; exact H2 | exact H1].
  - split; [exact H2 | apply list_elem_of_In; exact H1].
Qed.

Lemma elem_existing_titles k existing :
  k ∈ existing_titles existing <->
  exists e, e ∈ restandardize existing /\ _norm_title e = k.
Proof.
  unfold existing_titles. rewrite elem_of_list_to_set, list_elem_of_In, in_map_iff.
  split; intros (e & H1 & H2); exists e.
  - split; [apply list_elem_of_In; exact H2 | exact H1].
  - split; [exact H2 | apply list_elem_of_In; exact H1].
Qed.

Lemma elem_restandardize r df :
  r ∈ df -> restandardize_row r ∈ restandardize df.
Proof.
  intros H. rewrite restandardize_map, list_elem_of_In.
  apply in_map, list_elem_of_In, H.
Qed.

Lemma elem_restandardize_inv e df :
  e ∈ restandardize df -> exists r, r ∈ df /\ e = restandardize_row r.
Proof.
  rewrite restandardize_map, list_elem_of_In, in_map_iff.
  intros (r & H1 & H2). exists r. split; [apply list_elem_of_In, H2 | congruence].
Qed.

Lemma merge_unfold new_df existing_df :
  merge_with_existing new_df existing_df =
  map (fun r => restandardize_row (restandardize_row r)) existing_df ++
  map restandardize_row
    (assign_ids (max_id (restandardize existing_df) + 1)
       (truly_new new_df existing_df)).
Proof.
  unfold merge_with_existing. rewrite restandardize_app, !restandardize_map.
  rewrite List.map_map. reflexivity.
Qed.

Lemma truly_new_empty new_df : truly_new new_df [] = new_df.
Proof.
  unfold truly_new. induction new_df as [|r l IH]; [reflexivity|].
  rewrite filter_cons_True, IH; [reflexivity|].
  unfold existing_apps, existing_titles. simpl.
  intros [H|H]; apply elem_of_empty in H; exact H.
Qed.

(** Into an empty frame, the identifiers run from 50001. *)
Lemma merge_empty_ResourceId new_df :
  map ResourceId (merge_with_existing new_df []) =
  map (fun i => (50001 + Z.of_nat i)%Z) (seq 0 (length new_df)).
Proof.
  rewrite merge_unfold, truly_new_empty. simpl.
  rewrite List.map_map.
  rewrite (map_ext _ ResourceId (fun r => restandardize_ResourceId r)).
  apply assign_ids_ResourceId.
Qed.

(** C1 (the code departs from the claim): merged into an empty dataset,
    a one-record batch gets the identifier 50001, one above the floor value
    50000 from which [_add_standard_columns] numbers the same batch; the
    identifiers of a longer batch are contiguous and ascending, from 50001
    as well. *)
Theorem C1_merge_into_empty_starts_above_floor :
  forall (r : PatentRecord) (new_df : DataFrame),
    map ResourceId (merge_with_existing [r] []) = [50001%Z]
    /\ map ResourceId (_add_standard_columns [r]) = [50000%Z]
    /\ map ResourceId (merge_with_existing new_df []) =
       map (fun i => (50001 + Z.of_nat i)%Z) (seq 0 (length new_df))
    /\ new_count new_df [] = length new_df.
Proof.
  intros r new_df. split; [|split; [|split]].
  - rewrite merge_empty_ResourceId. reflexivity.
  - reflexivity.
  - apply merge_empty_ResourceId.
  - unfold new_count. rewrite truly_new_empty. reflexivity.
Qed.

Lemma remove_c_filter x :
  remove_c "-" (remove_c "." (remove_c " " x)) =
  List.filter (fun c => negb (mem_c " .-" c)) x.
Proof.
  unfold remove_c. induction x as [|c x IH]; [reflexivity|].
  cbn [List.filter mem_c existsb py list_ascii_of_string].
  destruct (Ascii.eqb c " ") eqn:E1; cbn [negb orb].
  - exact IH.
  - cbn [List.filter]. destruct (Ascii.eqb c ".") eqn:E2; cbn [negb orb].
    + exact IH.
    + cbn [List.filter]. destruct (Ascii.eqb c "-") eqn:E3; cbn [negb orb].
      * exact IH.
      * rewrite IH. reflexivity.
Qed.

(** The application-number key is the number upper-cased with spaces,
    periods and hyphens removed, then trimmed. *)
Lemma normalize_app_num_spec x :
  normalize_app_num x = strip (app_key_chars x).
Proof. unfold normalize_app_num, app_key_chars. rewrite remove_c_filter. reflexivity. Qed.

(** The title key is the lower-cased first 100 characters of the title. *)
Lemma norm_title_spec r : _norm_title r = lower (slice_to 100 (Title r)).
Proof. apply lower_slice. Qed.

(** The key sets of the merge, read off the existing dataset as it is
    given: trimming that dataset first does not change its
    application-number keys, and makes the title keys those of the trimmed
    titles. *)
Lemma elem_existing_apps_raw k existing :
  k ∈ existing_apps existing <->
  exists e, e ∈ existing /\ normalize_app_num (ApplicationNumber e) = k.
Proof.
  rewrite elem_existing_apps. split.
  - intros (e' & He' & <-). apply elem_restandardize_inv in He' as (e & He & ->).
    exists e. split; [exact He|]. symmetry. apply restandardize_norm_app.
  - intros (e & He & <-). exists (restandardize_row e). split.
    + apply elem_restandardize, He.
    + apply restandardize_norm_app.
Qed.

Lemma elem_existing_titles_raw k existing :
  k ∈ existing_titles existing <->
  exists e, e ∈ existing /\ lower (slice_to 100 (strip (Title e))) = k.
Proof.
  assert (forall e, _norm_title (restandardize_row e)
                    = lower (slice_to 100 (strip (Title e)))) as T.
  { intros e. rewrite norm_title_spec. simpl. rewrite clean_text_strip.
    reflexivity. }
  rewrite elem_existing_titles. split.
  - intros (e' & He' & <-). apply elem_restandardize_inv in He' as (e & He & ->).
    exists e. split; [exact He | symmetry; apply T].
  - intros (e & He & <-). exists (restandardize_row e). split.
    + apply elem_restandardize, He.
    + apply T.
Qed.

(** C2, as the claim words it, fails on three inputs.  An existing
    title with a blank at its end is trimmed before its key is taken, so
    the batch title without the blank is found although the keys of the
    two titles as given differ.  Two equal titles with a blank in front
    are not found, for the same reason, although their keys are equal.
    And the application-number key is trimmed after the three characters
    are removed, so a number that ends in a tab and a hyphen is found
    under the number without them. *)
Lemma C2_key_sets_are_of_trimmed_rows :
  (spec_truly_new [row "EP1" "Widget "] (row "EP2" "Widget") = true
   /\ truly_new [row "EP2" "Widget"] [row "EP1" "Widget "] = [])
  /\ (spec_truly_new [row "EP1" " Widget"] (row "EP2" " Widget") = false
      /\ truly_new [row "EP2" " Widget"] [row "EP1" " Widget"]
         = [row "EP2" " Widget"])
  /\ (spec_truly_new [row "A" "One"] (row (String "A" (String "009" "-")) "Two")
        = true
      /\ truly_new [row (String "A" (String "009" "-")) "Two"] [row "A" "One"]
         = []).
Proof. vm_compute. repeat split. Qed.

(** C2, amended: a batch record is truly new exactly when neither its
    application-number key nor its title key occurs in the corresponding
    key set of the existing dataset; a match on either key alone excludes
    it.  The application-number key is the number upper-cased, with spaces,
    periods and hyphens removed, and then trimmed; the title key is the
    lower-cased first 100 characters of the title; and the key sets are
    those of the existing dataset with its application numbers and titles
    trimmed, as the merge trims them at its start. *)
Theorem C2_truly_new_iff_neither_key_known :
  forall (new_df existing_df : DataFrame) (r : PatentRecord),
    (r ∈ truly_new new_df existing_df <->
       r ∈ new_df
       /\ (_norm_app r ∉ existing_apps existing_df)
       /\ (_norm_title r ∉ existing_titles existing_df))
    /\ (r ∈ truly_new new_df existing_df <->
          r ∈ new_df
          /\ ~ (exists e, e ∈ existing_df
                          /\ strip (app_key_chars (strip (ApplicationNumber e)))
                             = strip (app_key_chars (ApplicationNumber r)))
          /\ ~ (exists e, e ∈ existing_df
                          /\ lower (slice_to 100 (strip (Title e)))
                             = lower (slice_to 100 (Title r)))).
Proof.
  intros new_df existing_df r.
  assert (r ∈ truly_new new_df existing_df <->
          r ∈ new_df /\ (_norm_app r ∉ existing_apps existing_df)
          /\ (_norm_title r ∉ existing_titles existing_df)) as A.
  { unfold truly_new. rewrite list_elem_of_filter. tauto. }
  split; [exact A|].
  rewrite A, elem_existing_apps_raw, elem_existing_titles_raw.
  unfold _norm_app. rewrite norm_title_spec.
  setoid_rewrite <- normalize_app_num_spec.
  setoid_rewrite normalize_app_num_strip. reflexivity.
Qed.

Lemma filter_none {A} (P : A -> Prop) `{!forall x, Decision (P x)} (l : list A) :
  (forall x, x ∈ l -> ~ P x) -> filter P l = [].
Proof.
  induction l as [|a l IH]; intros Hno; [reflexivity|].
  rewrite filter_cons_False.
  - apply IH. intros x Hx. apply Hno, elem_of_cons. right. exact Hx.
  - apply Hno, elem_of_cons. left. reflexivity.
Qed.

Lemma filter_all {A} (P : A -> Prop) `{!forall x, Decision (P x)} (l : list A) :
  (forall x, P x) -> filter P l = l.
Proof.
  intros Hall. induction l as [|a l IH]; [reflexivity|].
  rewrite filter_cons_True by apply Hall. rewrite IH. reflexivity.
Qed.

Lemma filter_all_elem {A} (P : A -> Prop) `{!forall x, Decision (P x)} (l : list A) :
  (forall x, x ∈ l -> P x) -> filter P l = l.
Proof.
  induction l as [|a l IH]; intros Hall; [reflexivity|].
  rewrite filter_cons_True by (apply Hall, elem_of_cons; left; reflexivity).
  rewrite IH; [reflexivity|].
  intros x Hx. apply Hall, elem_of_cons. right. exact Hx.
Qed.

Lemma set_ResourceId_norm_app v r : _norm_app (set_ResourceId v r) = _norm_app r.
Proof. reflexivity. Qed.

(** Every row of the batch is known to the output of the merge by its
    application-number key or by its title key. *)
Lemma batch_known_after_merge new_df existing_df r :
  r ∈ new_df ->
  _norm_app r ∈ existing_apps (merge_with_existing new_df existing_df)
  \/ _norm_title r ∈ existing_titles (merge_with_existing new_df existing_df).
Proof.
  intros Hr.
  set (merged := merge_with_existing new_df existing_df).
  assert (forall x, x ∈ restandardize existing_df ++
                        assign_ids (max_id (restandardize existing_df) + 1)
                          (truly_new new_df existing_df) ->
                    restandardize_row (restandardize_row x) ∈ restandardize merged)
    as Hin.
  { intros x Hx. apply elem_restandardize. unfold merged, merge_with_existing.
    apply elem_restandardize. exact Hx. }
  destruct (decide (_norm_app r ∈ existing_apps existing_df)) as [Ha|Na];
    [|destruct (decide (_norm_title r ∈ existing_titles existing_df))
        as [Ht|Nt]].
  3: {
    (* added by the first merge: found again by its application number *)
    assert (r ∈ truly_new new_df existing_df) as Hnew.
    { unfold truly_new. apply list_elem_of_filter. split; [tauto | exact Hr]. }
    left. apply elem_existing_apps.
    destruct (assign_ids_elem (max_id (restandardize existing_df) + 1) _ _ Hnew)
      as [v Hv].
    exists (restandardize_row (restandardize_row (set_ResourceId v r))). split.
    + apply Hin, elem_of_app. right. exact Hv.
    + rewrite !restandardize_norm_app. reflexivity. }
  - (* already known to the first merge: still known, by the same key *)
    left. apply elem_existing_apps in Ha as (e & He & Hk).
    apply elem_existing_apps.
    exists (restandardize_row (restandardize_row e)). split.
    + apply Hin, elem_of_app. left. exact He.
    + rewrite !restandardize_norm_app. exact Hk.
  - right. apply elem_existing_titles in Ht as (e & He & Hk).
    apply elem_existing_titles.
    exists (restandardize_row (restandardize_row e)). split.
    + apply Hin, elem_of_app. left. exact He.
    + apply elem_restandardize_inv in He as (d & _ & ->).
      rewrite !restandardize_norm_title_idem. exact Hk.
Qed.

Lemma merge_length new_df existing_df :
  length (merge_with_existing new_df existing_df) =
  length existing_df + new_count new_df existing_df.
Proof.
  rewrite merge_unfold, length_app, !length_map, assign_ids_length. reflexivity.
Qed.

(** C3: merging a batch a second time, into the output of its first
    merge, finds no truly-new record: the count logged by the merge and the
    count the caller derives from the lengths are both zero. *)
Theorem C3_second_merge_adds_nothing :
  forall (B D : DataFrame),
    truly_new B (merge_with_existing B D) = []
    /\ new_count B (merge_with_existing B D) = 0
    /\ new_added B (merge_with_existing B D) = 0%Z
    /\ length (merge_with_existing B (merge_with_existing B D))
       = length (merge_with_existing B D).
Proof.
  intros B D.
  assert (truly_new B (merge_with_existing B D) = []) as E.
  { unfold truly_new. apply filter_none.
    intros r Hr Hnew. apply Hnew.
    apply batch_known_after_merge. exact Hr. }
  assert (new_count B (merge_with_existing B D) = 0) as E0.
  { unfold new_count. rewrite E. reflexivity. }
  split; [exact E|]. split; [exact E0|]. split.
  - unfold new_added. rewrite merge_length, E0. lia.
  - rewrite (merge_length B (merge_with_existing B D)), E0. lia.
Qed.

(** The columns a re-standardisation leaves alone. *)
Lemma restandardize_row_frame r :
  let r' := restandardize_row r in
  ResourceId r' = ResourceId r
  /\ ApplicationDate r' = ApplicationDate r
  /\ PatentYear r' = PatentYear r
  /\ PatentUrl r' = PatentUrl r
  /\ DocumentTypeId r' = DocumentTypeId r
  /\ DocumentTypeName r' = DocumentTypeName r
  /\ LegalStatusName r' = LegalStatusName r
  /\ Source r' = Source r
  /\ ExtractedDate r' = ExtractedDate r
  /\ ApplicationNumber r' = strip (ApplicationNumber r)
  /\ Title r' = strip (Title r)
  /\ Abstract r' = strip (Abstract r).
Proof. simpl. rewrite !clean_text_strip. repeat split. Qed.

(** *** The identifiers of a merged dataset *)

Lemma max_id_ge (df : DataFrame) r :
  r ∈ df -> (ResourceId r <= max_id df)%Z.
Proof.
  assert (forall (l : list Z) a, (a <= foldl Z.max a l)%Z
            /\ forall x, x ∈ l -> (x <= foldl Z.max a l)%Z) as F.
  { induction l as [|y l IH]; intros a; simpl.
    - split; [lia | intros x Hx; inversion Hx].
    - destruct (IH (Z.max a y)) as [H1 H2]. split; [lia|].
      intros x Hx. apply elem_of_cons in Hx as [->|Hx]; [lia | auto]. }
  destruct df as [|r0 df]; intros Hr; [inversion Hr|].
  simpl. destruct (F (map ResourceId df) (ResourceId r0)) as [H1 H2].
  apply elem_of_cons in Hr as [->|Hr]; [exact H1|].
  apply H2, list_elem_of_In, in_map, list_elem_of_In, Hr.
Qed.

Lemma restandardize_ids df : ResourceId <$> restandardize df = ResourceId <$> df.
Proof.
  rewrite restandardize_map. induction df as [|r df IH]; [reflexivity|].
  cbn [map]. rewrite !fmap_cons, IH. reflexivity.
Qed.

Lemma merge_ids new_df existing_df :
  ResourceId <$> merge_with_existing new_df existing_df =
  (ResourceId <$> existing_df) ++
  ((fun i => (max_id (restandardize existing_df) + 1 + Z.of_nat i)%Z)
     <$> seq 0 (new_count new_df existing_df)).
Proof.
  unfold merge_with_existing. rewrite restandardize_ids, fmap_app.
  rewrite restandardize_ids. f_equal.
  unfold new_count.
  generalize (max_id (restandardize existing_df) + 1)%Z.
  induction (truly_new new_df existing_df) as [|r l IH]; intros start;
    [reflexivity|].
  cbn [assign_ids length seq]. rewrite !fmap_cons, IH. f_equal; [simpl; lia|].
  rewrite <- seq_shift, <- list_fmap_compose. apply list_fmap_ext.
  intros i x _. simpl. lia.
Qed.

Lemma merge_fresh_ids new_df existing_df :
  ResourceId <$> drop (length existing_df) (merge_with_existing new_df existing_df)
  = (fun i => (max_id (restandardize existing_df) + 1 + Z.of_nat i)%Z)
      <$> seq 0 (new_count new_df existing_df).
Proof.
  rewrite fmap_drop, merge_ids.
  rewrite <- (length_fmap ResourceId existing_df) at 1.
  apply drop_app_length.
Qed.

Lemma existing_ids_le_max existing_df e :
  e ∈ existing_df -> (ResourceId e <= max_id (restandardize existing_df))%Z.
Proof.
  intros He.
  pose proof (max_id_ge (restandardize existing_df) (restandardize_row e)
                (elem_restandardize e existing_df He)) as H.
  rewrite restandardize_ResourceId in H. exact H.
Qed.

(** Within the bound, every identifier a merge hands out is above the
    largest existing one and fits the column. *)
Lemma fresh_ids_range new_df existing_df :
  ids_fit_int64 new_df existing_df ->
  Forall (fun m => (max_id (restandardize existing_df) + 1 <= ResourceId m
                    <= int64_max)%Z)
    (drop (length existing_df) (merge_with_existing new_df existing_df)).
Proof.
  intros [_ H].
  apply (Forall_fmap ResourceId
           (fun z => (max_id (restandardize existing_df) + 1 <= z <= int64_max)%Z)).
  rewrite merge_fresh_ids.
  apply Forall_fmap, Forall_forall. intros i Hi.
  apply elem_of_seq in Hi. simpl. lia.
Qed.

Lemma max_id_int64_min existing_df :
  Forall (fun r => (int64_min <= ResourceId r <= int64_max)%Z) existing_df ->
  (int64_min <= max_id (restandardize existing_df))%Z.
Proof.
  destruct existing_df as [|e l]; intros H.
  - vm_compute. discriminate.
  - apply Forall_cons in H as [He _].
    pose proof (existing_ids_le_max (e :: l) e) as M.
    specialize (M ltac:(apply elem_of_cons; left; reflexivity)). lia.
Qed.

Lemma merged_ids_fit new_df existing_df :
  ids_fit_int64 new_df existing_df ->
  Forall (fun m => (int64_min <= ResourceId m <= int64_max)%Z)
    (merge_with_existing new_df existing_df).
Proof.
  intros H.
  rewrite <- (take_drop (length existing_df)
                (merge_with_existing new_df existing_df)).
  apply Forall_app. split.
  - apply (Forall_fmap ResourceId (fun z => (int64_min <= z <= int64_max)%Z)).
    rewrite fmap_take, merge_ids.
    rewrite <- (length_fmap ResourceId existing_df) at 1.
    rewrite take_app_length. apply Forall_fmap. exact (proj1 H).
  - pose proof (max_id_int64_min existing_df (proj1 H)) as M.
    eapply Forall_impl; [apply fresh_ids_range, H|].
    intros m Hm. simpl in Hm. lia.
Qed.

Lemma restandardized_twice e :
  restandardized e (restandardize_row (restandardize_row e)).
Proof.
  unfold restandardized. simpl. rewrite !clean_text_strip, !strip_idem.
  repeat split.
Qed.

(** C6, as the claim words it, fails: the existing rows do not come
    back as the same rows.  An existing title with blanks around it comes
    back trimmed. *)
Lemma C6_existing_rows_are_rewritten :
  merge_with_existing [] [row "EP1" " Widget "] = [row "EP1" "Widget"]
  /\ Title <$> merge_with_existing [] [row "EP1" " Widget "] = [py "Widget"]
  /\ Title <$> [row "EP1" " Widget "] = [py " Widget "].
Proof. vm_compute. repeat split. Qed.

(** C6, amended: when the identifiers fit the [int64] column, the merged
    dataset is the existing dataset, row for row and in the same order,
    each row re-standardised (its name fields standardised, its Title,
    Abstract and ApplicationNumber trimmed, its ResourceId and every other
    column untouched), followed by the truly-new records with their new
    identifiers, which run from the largest existing identifier plus one
    and fit the column as well. *)
Theorem C6_merge_keeps_existing_rows :
  forall (new_df existing_df : DataFrame),
    ids_fit_int64 new_df existing_df ->
    let merged := merge_with_existing new_df existing_df in
    let n := length existing_df in
    take n merged =
      map (fun r => restandardize_row (restandardize_row r)) existing_df
    /\ map ResourceId (take n merged) = map ResourceId existing_df
    /\ Forall2 restandardized existing_df (take n merged)
    /\ drop n merged =
         map restandardize_row
           (assign_ids (max_id (restandardize existing_df) + 1)
              (truly_new new_df existing_df))
    /\ map ResourceId (drop n merged) =
         map (fun i => (max_id (restandardize existing_df) + 1 + Z.of_nat i)%Z)
           (seq 0 (new_count new_df existing_df))
    /\ Forall (fun m => (int64_min <= ResourceId m <= int64_max)%Z) merged
    /\ length merged = n + new_count new_df existing_df.
Proof.
  intros new_df existing_df Hfit merged n.
  pose proof (merged_ids_fit new_df existing_df Hfit) as Hrange.
  unfold merged, n. rewrite merge_unfold in *.
  set (old := map (fun r => restandardize_row (restandardize_row r)) existing_df)
    in *.
  assert (length old = length existing_df) as L by apply length_map.
  rewrite <- L, take_app_length, drop_app_length.
  split; [reflexivity|]. split.
  { unfold old. rewrite List.map_map. apply map_ext. reflexivity. }
  split.
  { unfold old. clear. induction existing_df as [|e l IH]; constructor;
      [apply restandardized_twice | exact IH]. }
  split; [reflexivity|]. split.
  { rewrite List.map_map.
    rewrite (map_ext _ ResourceId (fun r => restandardize_ResourceId r)).
    apply assign_ids_ResourceId. }
  split; [exact Hrange|].
  rewrite length_app, length_map, assign_ids_length. reflexivity.
Qed.

Lemma C6_merge_keeps_existing_rows_witness :
  ids_fit_int64 [row "EP3" "C"; row "EP1" "D"]
    [set_ResourceId 7 (row "EP1" " A "); set_ResourceId 50012 (row "EP2" "B")]
  /\ map ResourceId
       (take 2 (merge_with_existing [row "EP3" "C"; row "EP1" "D"]
                  [set_ResourceId 7 (row "EP1" " A ");
                   set_ResourceId 50012 (row "EP2" "B")]))
     = [7; 50012]%Z.
Proof.
  assert (ids_fit_int64 [row "EP3" "C"; row "EP1" "D"]
            [set_ResourceId 7 (row "EP1" " A ");
             set_ResourceId 50012 (row "EP2" "B")]) as H.
  { split; [repeat constructor; vm_compute; discriminate
           | vm_compute; discriminate]. }
  split; [exact H|].
  exact (proj1 (proj2
           (C6_merge_keeps_existing_rows [row "EP3" "C"; row "EP1" "D"]
              [set_ResourceId 7 (row "EP1" " A ");
               set_ResourceId 50012 (row "EP2" "B")] H))).
Defined.

(** A dataset already in standard form comes back unchanged at the head
    of the merged dataset. *)
Lemma merge_keeps_standard_rows new_df existing_df :
  restandardize existing_df = existing_df ->
  take (length existing_df) (merge_with_existing new_df existing_df)
  = existing_df.
Proof.
  intros H. rewrite merge_unfold.
  rewrite <- (List.map_map restandardize_row restandardize_row).
  rewrite <- !restandardize_map, H, H.
  apply take_app_length.
Qed.

(** ** First occurrence wins *)

Section KeepFirst.
Context {A : Type} (key : A -> list ascii).

Lemma keep_first_sublist l : keep_first key l `sublist_of` l.
Proof.
  induction l as [|r l IH]; simpl; [constructor|].
  apply sublist_skip. etransitivity; [apply sublist_filter | exact IH].
Qed.

Lemma keep_first_NoDup l : NoDup (key <$> keep_first key l).
Proof.
  induction l as [|r l IH]; [constructor|].
  cbn [keep_first]. rewrite fmap_cons. constructor.
  - rewrite list_elem_of_fmap. intros (x & Hk & Hx).
    apply list_elem_of_filter in Hx as [Hne _]. congruence.
  - eapply sublist_NoDup; [exact IH|].
    apply fmap_sublist, sublist_filter.
Qed.

(** A row is kept exactly when no earlier row has its key. *)
Lemma keep_first_elem l r :
  r ∈ keep_first key l <->
  exists l1 l2, l = l1 ++ r :: l2 /\ key r ∉ key <$> l1.
Proof.
  induction l as [|x l IH]; simpl.
  - split; [intros H; inversion H|].
    intros (l1 & l2 & H & _). destruct l1; discriminate.
  - rewrite elem_of_cons, list_elem_of_filter, IH. split.
    + intros [->|(Hne & l1 & l2 & -> & Hk)].
      * exists [], l. split; [reflexivity|]. simpl. apply not_elem_of_nil.
      * exists (x :: l1), l2. split; [reflexivity|].
        rewrite fmap_cons, not_elem_of_cons. split; assumption.
    + intros (l1 & l2 & H & Hk). destruct l1 as [|y l1]; simpl in H.
      * left. congruence.
      * injection H as <- ->. right.
        rewrite fmap_cons, not_elem_of_cons in Hk. destruct Hk as [Hne Hk].
        split; [exact Hne|]. exists l1, l2. split; [reflexivity | exact Hk].
Qed.

(** Every key of the input survives. *)
Lemma keep_first_keys l r :
  r ∈ l -> exists r', r' ∈ keep_first key l /\ key r' = key r.
Proof.
  induction l as [|x l IH]; intros Hr; [inversion Hr|].
  apply elem_of_cons in Hr as [->|Hr].
  - exists x. split; [simpl; apply elem_of_cons; left|]; reflexivity.
  - destruct (IH Hr) as (r' & Hr' & Hk).
    destruct (decide (key r' = key x)) as [E|N].
    + exists x. split; [simpl; apply elem_of_cons; left; reflexivity|].
      congruence.
    + exists r'. split; [|exact Hk]. simpl. apply elem_of_cons. right.
      apply list_elem_of_filter. split; assumption.
Qed.

(** What a [seen] set leaves of the first occurrences, read one row at a
    time. *)
Lemma keep_first_seen_cons (seen : gset (list ascii)) x l :
  filter (fun r => key r ∉ seen) (keep_first key (x :: l)) =
  if decide (key x ∈ seen)
  then filter (fun r => key r ∉ seen) (keep_first key l)
  else x :: filter (fun r => key r ∉ {[key x]} ∪ seen) (keep_first key l).
Proof.
  cbn [keep_first]. rewrite filter_cons.
  destruct (decide (key x ∈ seen)) as [Hin|Hout].
  - rewrite decide_False by (intros H; exact (H Hin)).
    apply list_filter_filter_l.
    intros y Hy E. apply Hy. rewrite E. exact Hin.
  - rewrite decide_True by exact Hout.
    rewrite list_filter_filter. f_equal.
    apply list_filter_iff. intros y.
    rewrite not_elem_of_union, not_elem_of_singleton. tauto.
Qed.
End KeepFirst.

(** A pass of [drop_duplicates] started with the keys [seen] keeps the
    first occurrences whose key is not in [seen]. *)
Lemma drop_duplicates_from_keep_first key seen df :
  drop_duplicates_from key seen df =
  filter (fun r => key r ∉ seen) (keep_first key df).
Proof.
  revert seen. induction df as [|r df IH]; intros seen; [reflexivity|].
  rewrite keep_first_seen_cons. cbn [drop_duplicates_from].
  case_decide as Hseen.
  - rewrite bool_decide_true by exact Hseen. apply IH.
  - rewrite bool_decide_false by exact Hseen. rewrite IH. reflexivity.
Qed.

Lemma drop_duplicates_keep_first key df :
  drop_duplicates key df = keep_first key df.
Proof.
  unfold drop_duplicates. rewrite drop_duplicates_from_keep_first.
  apply filter_all. intros r. apply not_elem_of_empty.
Qed.

(** C9: the de-duplication is two first-occurrence-wins passes in a
    row, the first keyed on ApplicationNumber as it stands, the second on
    the lower-cased first 100 characters of Title and run over the
    survivors of the first; the survivors keep their order in the batch,
    and no two of them share either key. *)
Theorem C9_deduplicate_two_stable_passes :
  forall (batch : DataFrame),
    _deduplicate batch =
      keep_first (fun r => lower (slice_to 100 (Title r)))
        (keep_first ApplicationNumber batch)
    /\ _deduplicate batch `sublist_of` batch
    /\ NoDup (ApplicationNumber <$> _deduplicate batch)
    /\ NoDup ((fun r => lower (slice_to 100 (Title r))) <$> _deduplicate batch).
Proof.
  intros batch.
  assert (_deduplicate batch =
          keep_first title_norm (keep_first ApplicationNumber batch)) as E.
  { unfold _deduplicate. rewrite !drop_duplicates_keep_first. reflexivity. }
  assert (forall l : DataFrame,
             keep_first title_norm l =
             keep_first (fun r => lower (slice_to 100 (Title r))) l) as T.
  { induction l as [|r l IH]; [reflexivity|]. simpl. rewrite IH.
    f_equal. apply list_filter_iff. intros x. unfold title_norm.
    rewrite !lower_slice. reflexivity. }
  split; [rewrite E; apply T|]. split; [|split].
  - rewrite E. etransitivity; apply keep_first_sublist.
  - rewrite E.
    apply (sublist_NoDup _ (ApplicationNumber <$> keep_first ApplicationNumber batch)).
    + apply keep_first_NoDup.
    + apply fmap_sublist, keep_first_sublist.
  - rewrite E, T. apply keep_first_NoDup.
Qed.

Example deduplicate_ex1 :
  _deduplicate [row "EP1" "Widget"; row "EP2" "widget"; row "EP1" "Gadget";
                row "EP3" "Gizmo"]
  = [row "EP1" "Widget"; row "EP3" "Gizmo"].
Proof. vm_compute. reflexivity. Qed.

(** The end-to-end scenario of the specification: the cleaned batch is
    numbered from 50000, the same batch merged into an empty dataset from
    50001. *)
Example end_to_end_ex1 :
  let batch :=
    [mkRecord 0 "EP 1 A1" "20200115" [] " Widget " []
       "QATAR FOUND. FOR EDUCATION, SCIENCE" [] [] [] 0 [] [] "Lens" []] in
  (fun cleaned =>
     ((fun r => (Applicants r, PatentYear r, ResourceId r)) <$> cleaned,
      (fun r => (Applicants r, PatentYear r, ResourceId r))
        <$> merge_with_existing cleaned [],
      new_count cleaned [])) <$> clean lens_columns "2024-01-01" batch
  = Some
      ([(py "Qatar Foundation for Education, Science and Community Development",
         py "2020", 50000%Z)],
       [(py "Qatar Foundation for Education, Science and Community Development",
         py "2020", 50001%Z)],
       1).
Proof. vm_compute. reflexivity. Qed.

(** A batch that brings its own [ResourceId] column keeps it, and the
    columns it lacks are filled in; no batch at all is an error. *)
Example clean_ex1 :
  let batch :=
    [mkRecord 77 "EP1" [] [] " Widget " [] [] [] [] [] 0 [] [] [] [];
     mkRecord 5 "EP2" [] [] "Gadget" [] [] [] [] [] 0 [] [] [] []] in
  (clean ["ResourceId"; "ApplicationNumber"; "Title"]%string "2024-01-01" batch,
   clean lens_columns "2024-01-01" [],
   clean ["ApplicationNumber"; "Abstract"]%string "2024-01-01" batch,
   (fun r => (ResourceId r, LegalStatusName r))
     <$> default [] (clean epo_columns "2024-01-01" batch))
  = (Some
       [mkRecord 77 "EP1" [] [] "Widget" [] [] [] [] [] 3
          "Patent Application" "PENDING" "EPO" "2024-01-01";
        mkRecord 5 "EP2" [] [] "Gadget" [] [] [] [] [] 3
          "Patent Application" "PENDING" "EPO" "2024-01-01"],
     None, None,
     [(50000%Z, py "PENDING"); (50001%Z, py "PENDING")]).
Proof. vm_compute. reflexivity. Qed.

(** The raw pass tells "EP 123 A1" from "EP123A1"; the merge does not. *)
Example deduplicate_ex2 :
  ApplicationNumber <$> drop_duplicates ApplicationNumber
    [row "EP 123 A1" "Widget"; row "EP123A1" "Widget"]
  = [py "EP 123 A1"; py "EP123A1"].
Proof. vm_compute. reflexivity. Qed.

Example truly_new_ex1 :
  truly_new [row "EP 123 A1" "Widget"; row "US-9.1" "Other"; row "WO7" "New"]
            [row "ep123a1" "Gadget"; row "XX" " OTHER "]
  = [row "WO7" "New"].
Proof. vm_compute. reflexivity. Qed.

(** ** Name fields *)

(** Deleting the matches of a negated class keeps the characters of the
    class. *)
Lemma delete_negated_class items s i :
  delete_aux (Seq (Class true items) Eps) 0 i s =
  List.filter (in_class items) s.
Proof.
  revert i. induction s as [|c t IH]; intros i; [reflexivity|].
  cbn [delete_aux m one_char List.filter]. unfold class_ok.
  cbn [andb]. rewrite orb_false_r.
  replace (length (c :: t) - length t) with 1 by (simpl; lia).
  destruct (in_class items c); cbn [xorb]; rewrite IH; reflexivity.
Qed.

(** The key of the field-level de-duplication, in the words of the
    specification: lower-cased, every non-alphanumeric character
    stripped. *)
Lemma norm_key_spec p : norm_key p = List.filter is_alnum_c (lower p).
Proof.
  unfold norm_key, re_delete.
  change (compile "[^a-z0-9]")
    with (Seq (Class true [("a", "z"); ("0", "9")]%char) Eps).
  rewrite delete_negated_class. unfold lower.
  induction p as [|c p IH]; [reflexivity|].
  cbn [map List.filter]. rewrite IH.
  assert (in_class [("a", "z"); ("0", "9")]%char (lower_c c)
          = is_alnum_c (lower_c c)) as ->; [|reflexivity].
  apply eqb_prop. revert c.
  apply (ascii_all (fun c => Bool.eqb
           (in_class [("a", "z"); ("0", "9")]%char (lower_c c))
           (is_alnum_c (lower_c c)))).
  vm_compute. reflexivity.
Qed.

Lemma truthy_false (s : str) : truthy s = false <-> s = [].
Proof. destruct s; simpl; split; congruence. Qed.

Lemma name_loop_keep_first std parts seen cleaned :
  name_loop std parts seen cleaned =
  cleaned ++
  filter (fun p => norm_key p ∉ seen)
    (keep_first norm_key
       (filter (fun p => 2 <= length (norm_key p))
          (filter (fun p => p <> []) (std <$> parts)))).
Proof.
  revert seen cleaned.
  induction parts as [|p parts IH]; intros seen cleaned.
  { simpl. rewrite app_nil_r. reflexivity. }
  cbn [name_loop]. rewrite fmap_cons, (filter_cons _ (std p)).
  destruct (truthy (std p)) eqn:Tp; cbn [negb].
  2: { apply truthy_false in Tp.
       rewrite decide_False by (intros H; exact (H Tp)). apply IH. }
  rewrite decide_True by (intros E; rewrite E in Tp; discriminate).
  rewrite (filter_cons _ (std p)).
  destruct (decide (2 <= length (norm_key (std p)))) as [L|L].
  - assert (truthy (norm_key (std p)) = true) as ->
        by (destruct (norm_key (std p)); [simpl in L; lia | reflexivity]).
    assert ((1 <? length (norm_key (std p))) = true) as ->
        by (apply Nat.ltb_lt; lia).
    rewrite keep_first_seen_cons. cbn [andb].
    case_decide as Hseen.
    + rewrite bool_decide_false by (intros H; exact (H Hseen)). apply IH.
    + rewrite bool_decide_true by exact Hseen.
      rewrite IH, <- app_assoc. reflexivity.
  - assert ((1 <? length (norm_key (std p))) = false) as ->
        by (apply Nat.ltb_ge; lia).
    rewrite andb_false_r. cbn [andb]. apply IH.
Qed.

Lemma standardize_name_empty : standardize_name [] = [].
Proof. reflexivity. Qed.


Example clean_name_field_ex2 :
  clean_name_field "QATAR FOUND. FOR EDUCATION, SCIENCE; and Community Development; A.; DOE, JANE [US]; Jane Doe"
  = py "Qatar Foundation for Education, Science and Community Development; Jane Doe".
Proof. vm_compute. reflexivity. Qed.

(** ** Dates *)

Lemma take_nil_iff {A} (n : nat) (l : list A) : 0 < n -> take n l = [] <-> l = [].
Proof.
  intros Hn. destruct n; [lia|]. destruct l; simpl; split; congruence.
Qed.


Example format_dates_ex1 :
  let r := format_dates_row
             (mkRecord 0 [] " 19991231 " [] [] [] [] [] [] [] 3 [] [] [] []) in
  (ApplicationDate r, PatentYear r) = (py "1999-12-31", py "1999").
Proof. vm_compute. reflexivity. Qed.

(** ** The organisation test *)

Lemma is_organization_empty : _is_organization [] = false.
Proof. reflexivity. Qed.

(** A non-empty name made of white space only passes the first guard;
    its trimmed form is the empty string, which is a substring of every
    known organisation. *)
Lemma is_organization_blank name :
  name <> [] -> strip (lower name) = [] -> _is_organization name = true.
Proof.
  intros Hne Hblank. unfold _is_organization.
  destruct name as [|c t]; [congruence|].
  cbn [truthy negb]. rewrite Hblank. vm_compute. reflexivity.
Qed.

(** C5 (the code departs from the claim): the empty name is rejected,
    but a blank name is accepted as an organisation, for three spaces as for
    a tab. *)
Theorem C5_blank_name_is_organization :
  _is_organization "" = false
  /\ _is_organization "   " = true
  /\ _is_organization [ascii_of_nat 9] = true.
Proof. vm_compute. repeat split. Qed.

(** ** The standardiser and its two tables *)

(** C8: a raw name whose trimmed, country-code-free,
    punctuation-stripped and lower-cased form matches one of the discard
    patterns is standardised to the empty string. *)
Theorem C8_discard_pattern_gives_empty :
  forall (name : str),
    is_garbage GARBAGE_FRAGMENTS (candidate name) = true ->
    standardize_name name = [].
Proof.
  intros name H. unfold standardize_name, standardize_with.
  destruct (truthy name); [|reflexivity]. cbn [negb].
  destruct (truthy (cleaned_name name)); [|reflexivity]. cbn [negb].
  unfold candidate in H. rewrite H. reflexivity.
Qed.

Lemma C8_discard_pattern_gives_empty_witness :
  is_garbage GARBAGE_FRAGMENTS
    (candidate " ;And  COMMUNITY Development [QA] .,") = true
  /\ standardize_name " ;And  COMMUNITY Development [QA] .," = [].
Proof.
  split; [vm_compute; reflexivity|].
  apply (C8_discard_pattern_gives_empty " ;And  COMMUNITY Development [QA] .,").
  vm_compute. reflexivity.
Defined.

Example discard_ex1 :
  map standardize_name
    [py "for Education"; py "FOR EDUCATION,"; py "Science & Community Dev.";
     py "higher education [US]"; py "& Sons Ltd"; py "..Social Development;"]
  = [[]; []; []; []; []; []].
Proof. vm_compute. reflexivity. Qed.

(** *** The matcher, one character at a time *)

Lemma one_char_some {A} ok (k : nat -> str -> option A) i s a :
  one_char ok k i s = Some a ->
  exists x t, s = x :: t /\ ok x = true /\ k (S i) t = Some a.
Proof.
  destruct s as [|x t]; simpl; [discriminate|].
  destruct (ok x) eqn:E; [|discriminate]. intros H. exists x, t. auto.
Qed.

Lemma orelse_some {A} (a b : option A) v :
  orelse a b = Some v -> a = Some v \/ b = Some v.
Proof. destruct a; simpl; auto. Qed.

Lemma lower_is_lowered s : is_lowered (lower s).
Proof.
  unfold is_lowered, lower. induction s; simpl; constructor;
    [apply lower_c_idem | assumption].
Qed.

Lemma Forall_lstrip_by (P : ascii -> Prop) p s :
  Forall P s -> Forall P (lstrip_by p s).
Proof.
  induction 1 as [|c t Hc Ht IH]; simpl; [constructor|].
  destruct (p c); [exact IH | constructor; assumption].
Qed.

Lemma Forall_strip_by (P : ascii -> Prop) p s :
  Forall P s -> Forall P (strip_by p s).
Proof.
  intros H. unfold strip_by, rstrip_by.
  apply Forall_rev, Forall_lstrip_by, Forall_rev, Forall_lstrip_by, H.
Qed.

Lemma candidate_is_lowered name : is_lowered (candidate name).
Proof. apply Forall_strip_by, lower_is_lowered. Qed.

Lemma chr_ok_lowered c x :
  lower_c x = x -> chr_ok true c x = true -> x = lower_c c.
Proof. unfold chr_ok. intros E H. apply Ascii.eqb_eq in H. congruence. Qed.

(** Reads the next literal character off a successful match of a
    case-insensitive pattern against a lower-cased subject. *)
Ltac next_char E L :=
  let x := fresh "x" in
  let t := fresh "t" in
  let Hok := fresh "Hok" in
  let Hx := fresh "Hx" in
  apply one_char_some in E as (x & t & -> & Hok & E);
  apply Forall_cons in L as [Hx L];
  apply (chr_ok_lowered _ _ Hx) in Hok; vm_compute in Hok; subst x.

(** A lower-cased string that matches a discard pattern matches no
    pattern of the canonical table: the discard patterns begin with
    "sci", "edu", "com", "soc", "hig", "and", "&" or "for", and no canonical
    pattern can begin so. *)
Lemma garbage_has_no_standard s :
  is_lowered s ->
  is_garbage GARBAGE_FRAGMENTS s = true ->
  find_standard INSTITUTION_STANDARDS s = None.
Proof.
  intros L H.
  assert (exists g, In g GARBAGE_FRAGMENTS /\ re_match true g s = true)
    as (g & Hg & Hm).
  { revert H. generalize GARBAGE_FRAGMENTS. induction l as [|g l IH]; simpl;
      [discriminate|].
    destruct (re_match true g s) eqn:E.
    - intros _. exists g. auto.
    - intros H. destruct (IH H) as (g' & ? & ?). exists g'. auto. }
  unfold re_match in Hm.
  destruct (m true g (fun _ _ => Some ()) 0 s) as [u|] eqn:E; [clear Hm|discriminate].
  vm_compute in Hg.
  repeat (destruct Hg as [<-|Hg]); try contradiction; cbn [m] in E;
    try (apply orelse_some in E as [E|E]);
    next_char E L; try (next_char E L; next_char E L);
    vm_compute; reflexivity.
Qed.

Lemma find_standard_first pre pattern standard post s :
  Forall (fun e => re_match false (fst e) s = false) pre ->
  re_match false pattern s = true ->
  find_standard (pre ++ (pattern, standard) :: post) s = Some standard.
Proof.
  induction 1 as [|[p0 s0] pre H0 _ IH]; intros Hm; simpl.
  - rewrite Hm. reflexivity.
  - simpl in H0. rewrite H0. apply IH, Hm.
Qed.

(** No pattern of the canonical table matches the empty string. *)
Lemma no_standard_for_empty : find_standard INSTITUTION_STANDARDS [] = None.
Proof. vm_compute. reflexivity. Qed.

Lemma candidate_of_empty_cleaned name :
  truthy (cleaned_name name) = false -> candidate name = [].
Proof.
  intros H. apply truthy_false in H. unfold candidate. rewrite H. reflexivity.
Qed.

Lemma cleaned_of_empty name : truthy name = false -> cleaned_name name = [].
Proof. intros H. apply truthy_false in H. subst. reflexivity. Qed.

Lemma nomatch_forallb (pre : list (regex * str)) s :
  forallb (fun e => negb (re_match false (fst e) s)) pre = true ->
  Forall (fun e => re_match false (fst e) s = false) pre.
Proof.
  intros H. apply Forall_forall. intros e He.
  rewrite forallb_forall in H. apply negb_true_iff, H, list_elem_of_In, He.
Qed.

(** C4: when the lower-cased candidate of a name matches an entry of
    the canonical table and none of the entries before it, the name is
    standardised to the canonical name of that entry, whatever entries
    follow it in the table: they are not consulted. *)
Theorem C4_first_matching_pattern_wins :
  forall (name : str) (pre post : list (regex * str))
         (pattern : regex) (standard : str),
    INSTITUTION_STANDARDS = pre ++ (pattern, standard) :: post ->
    re_match false pattern (candidate name) = true ->
    Forall (fun e => re_match false (fst e) (candidate name) = false) pre ->
    standardize_name name = standard
    /\ forall later : list (regex * str),
         standardize_with GARBAGE_FRAGMENTS (pre ++ (pattern, standard) :: later)
           name = standard.
Proof.
  intros name pre post pattern standard Htable Hm Hpre.
  assert (find_standard INSTITUTION_STANDARDS (candidate name) = Some standard)
    as Hfound.
  { rewrite Htable. apply find_standard_first; assumption. }
  assert (candidate name <> []) as Hne.
  { intros E. rewrite E, no_standard_for_empty in Hfound. discriminate. }
  assert (truthy (cleaned_name name) = true) as Hc.
  { destruct (truthy (cleaned_name name)) eqn:E; [reflexivity|].
    exfalso. apply Hne, candidate_of_empty_cleaned, E. }
  assert (truthy name = true) as Hn.
  { destruct (truthy name) eqn:E; [reflexivity|].
    rewrite (cleaned_of_empty name E) in Hc. discriminate. }
  assert (is_garbage GARBAGE_FRAGMENTS (candidate name) = false) as Hg.
  { destruct (is_garbage GARBAGE_FRAGMENTS (candidate name)) eqn:E;
      [|reflexivity].
    rewrite (garbage_has_no_standard _ (candidate_is_lowered name) E) in Hfound.
    discriminate. }
  assert (forall later,
             standardize_with GARBAGE_FRAGMENTS
               (pre ++ (pattern, standard) :: later) name = standard) as Hall.
  { intros later. unfold standardize_with. rewrite Hn. cbn [negb].
    rewrite Hc. cbn [negb]. fold (candidate name). rewrite Hg.
    rewrite find_standard_first by assumption. reflexivity. }
  split; [|exact Hall].
  unfold standardize_name. rewrite Htable. apply Hall.
Qed.

(** "Qatar University QSTP-B" is matched by the 27th entry and by the
    29th, and by none of the 26 before. *)
Lemma C4_first_matching_pattern_wins_witness :
  re_match false (compile "^qatar\s*univ\.?\s*")
    (candidate "Qatar University QSTP-B [QA]") = true
  /\ standardize_name "Qatar University QSTP-B [QA]" = py "Qatar University".
Proof.
  split; [vm_compute; reflexivity|].
  apply (C4_first_matching_pattern_wins "Qatar University QSTP-B [QA]"
           (take 26 INSTITUTION_STANDARDS) (drop 27 INSTITUTION_STANDARDS)
           (compile "^qatar\s*university\s*qstp.*") "Qatar University").
  - vm_compute. reflexivity.
  - vm_compute. reflexivity.
  - apply nomatch_forallb. vm_compute. reflexivity.
Defined.

(** The order of the table decides, not the specificity of a pattern. *)
Example table_order_ex1 :
  let general := (compile "qatar.*", py "General") in
  let specific := (compile "qatar\s*university", py "Specific") in
  (standardize_with GARBAGE_FRAGMENTS [general; specific] "Qatar University",
   standardize_with GARBAGE_FRAGMENTS [specific; general] "Qatar University")
  = (py "General", py "Specific").
Proof. vm_compute. reflexivity. Qed.

(** * Further properties of the cleaner *)

(** ** The merge and the identifiers *)

(** X1: merging an empty batch adds nothing: the output is the
    existing dataset re-standardised, with the same number of rows and the
    same ResourceIds in the same order. *)
Theorem merge_empty_batch_adds_nothing :
  forall (existing_df : DataFrame),
    merge_with_existing [] existing_df
      = restandardize (restandardize existing_df)
    /\ ResourceId <$> merge_with_existing [] existing_df
       = ResourceId <$> existing_df
    /\ length (merge_with_existing [] existing_df) = length existing_df
    /\ new_count [] existing_df = 0.
Proof.
  intros D. split; [|split; [|split]].
  - unfold merge_with_existing. cbn [truly_new filter list_filter assign_ids].
    rewrite app_nil_r. reflexivity.
  - rewrite merge_ids. cbn. apply app_nil_r.
  - rewrite merge_length. cbn. lia.
  - reflexivity.
Qed.

(** X2: within the bound of the [int64] column, the merge keeps the
    ResourceIds unique: no existing identifier is above the largest one,
    every identifier the merge hands out is that largest one plus 1 or
    more and fits the column, so a dataset without duplicate ResourceIds
    is merged into one without. *)
Theorem merge_keeps_ids_unique :
  forall (new_df existing_df : DataFrame),
    ids_fit_int64 new_df existing_df ->
    NoDup (ResourceId <$> existing_df) ->
    let merged := merge_with_existing new_df existing_df in
    let fresh := drop (length existing_df) merged in
    Forall (fun e => (ResourceId e <= max_id (restandardize existing_df))%Z)
      existing_df
    /\ Forall (fun m => (max_id (restandardize existing_df) + 1 <= ResourceId m
                         <= int64_max)%Z) fresh
    /\ ResourceId <$> take (length existing_df) merged = ResourceId <$> existing_df
    /\ NoDup (ResourceId <$> merged).
Proof.
  intros B D Hfit HD merged fresh. unfold fresh, merged.
  split; [|split; [|split]].
  - apply Forall_forall. intros e He. apply existing_ids_le_max, He.
  - apply fresh_ids_range, Hfit.
  - rewrite fmap_take, merge_ids.
    rewrite <- (length_fmap ResourceId D) at 1. apply take_app_length.
  - rewrite merge_ids. apply NoDup_app. split; [exact HD|]. split.
    + intros x Hx Hfresh.
      apply list_elem_of_fmap in Hx as (e & -> & He).
      apply list_elem_of_fmap in Hfresh as (i & Hi & _).
      pose proof (existing_ids_le_max D e He). lia.
    + apply NoDup_fmap_2; [intros i j Hij; lia | apply NoDup_seq].
Qed.

Lemma merge_keeps_ids_unique_witness :
  (ids_fit_int64 [row "EP3" "C"; row "EP1" "D"; row "EP4" "E"]
     [set_ResourceId 7 (row "EP1" "A"); set_ResourceId 50012 (row "EP2" "B")]
   /\ NoDup (ResourceId <$> [set_ResourceId 7 (row "EP1" "A");
                             set_ResourceId 50012 (row "EP2" "B")]))
  /\ NoDup (ResourceId <$>
            merge_with_existing [row "EP3" "C"; row "EP1" "D"; row "EP4" "E"]
              [set_ResourceId 7 (row "EP1" "A"); set_ResourceId 50012 (row "EP2" "B")]).
Proof.
  assert (ids_fit_int64 [row "EP3" "C"; row "EP1" "D"; row "EP4" "E"]
            [set_ResourceId 7 (row "EP1" "A");
             set_ResourceId 50012 (row "EP2" "B")]) as F.
  { split; [repeat constructor; vm_compute; discriminate
           | vm_compute; discriminate]. }
  assert (NoDup (ResourceId <$> [set_ResourceId 7 (row "EP1" "A");
                                 set_ResourceId 50012 (row "EP2" "B")])) as H.
  { cbn. apply NoDup_cons. split; [|apply NoDup_singleton].
    rewrite list_elem_of_singleton. discriminate. }
  split; [split; [exact F | exact H]|].
  exact (proj2 (proj2 (proj2
           (merge_keeps_ids_unique
              [row "EP3" "C"; row "EP1" "D"; row "EP4" "E"]
              [set_ResourceId 7 (row "EP1" "A");
               set_ResourceId 50012 (row "EP2" "B")] F H)))).
Defined.

Example merge_ids_ex1 :
  ResourceId <$>
    merge_with_existing [row "EP3" "C"; row "EP1" "D"; row "EP4" "E"]
      [set_ResourceId 7 (row "EP1" "A"); set_ResourceId 50012 (row "EP2" "B")]
  = [7; 50012; 50013; 50014]%Z.
Proof. vm_compute. reflexivity. Qed.

(** ** De-duplication *)

Lemma keep_first_NoDup_id {A} (key : A -> list ascii) (l : list A) :
  NoDup (key <$> l) -> keep_first key l = l.
Proof.
  induction l as [|r l IH]; [reflexivity|].
  rewrite fmap_cons. intros H. apply NoDup_cons in H as [Hr Hl].
  cbn [keep_first]. rewrite (IH Hl). f_equal.
  apply filter_all_elem. intros x Hx E. apply Hr. rewrite <- E.
  apply list_elem_of_fmap. exists x. auto.
Qed.

Lemma deduplicate_keys_NoDup batch :
  NoDup (ApplicationNumber <$> _deduplicate batch)
  /\ NoDup (title_norm <$> _deduplicate batch).
Proof.
  unfold _deduplicate. rewrite !drop_duplicates_keep_first. split.
  - apply (sublist_NoDup _ (ApplicationNumber <$> keep_first ApplicationNumber batch)).
    + apply keep_first_NoDup.
    + apply fmap_sublist, keep_first_sublist.
  - apply keep_first_NoDup.
Qed.

Lemma deduplicate_sublist batch : _deduplicate batch `sublist_of` batch.
Proof.
  unfold _deduplicate. rewrite !drop_duplicates_keep_first.
  etransitivity; apply keep_first_sublist.
Qed.

(** X3: de-duplicating twice changes nothing more. *)
Theorem deduplicate_idempotent :
  forall (batch : DataFrame),
    _deduplicate (_deduplicate batch) = _deduplicate batch.
Proof.
  intros batch. destruct (deduplicate_keys_NoDup batch) as [H1 H2].
  unfold _deduplicate at 1. rewrite !drop_duplicates_keep_first.
  rewrite (keep_first_NoDup_id ApplicationNumber _ H1).
  apply keep_first_NoDup_id, H2.
Qed.

(** ** Dates *)

Lemma digit_not_space c : is_digit_c c = true -> isspace_c c = false.
Proof.
  intros H.
  assert (forall c, implb (is_digit_c c) (negb (isspace_c c)) = true) as A.
  { apply ascii_all. vm_compute. reflexivity. }
  specialize (A c). rewrite H in A. simpl in A.
  apply negb_true_iff in A. exact A.
Qed.

Lemma digit_not_hyphen c : is_digit_c c = true -> Ascii.eqb c "-" = false.
Proof.
  intros H.
  assert (forall c, implb (is_digit_c c) (negb (Ascii.eqb c "-")) = true) as A.
  { apply ascii_all. vm_compute. reflexivity. }
  specialize (A c). rewrite H in A. simpl in A.
  apply negb_true_iff in A. exact A.
Qed.

(** A string of 8 digits, taken apart. *)
Lemma eight_digits d :
  length d = 8 -> forallb is_digit_c d = true ->
  exists a b c e f g h i,
    d = [a; b; c; e; f; g; h; i]
    /\ Forall (fun x => is_digit_c x = true) [a; b; c; e; f; g; h; i].
Proof.
  intros L D.
  do 8 (destruct d as [|? d]; [discriminate L|]).
  destruct d; [|discriminate L].
  do 8 eexists. split; [reflexivity|].
  apply Forall_forall. intros x Hx. rewrite forallb_forall in D.
  apply D, list_elem_of_In, Hx.
Qed.

Ltac digits_of H :=
  repeat match type of H with
         | Forall _ (_ :: _) => apply Forall_cons in H as [? H]
         end.

(** X5: a date of exactly 8 digits is rewritten to YYYY-MM-DD: ten
    characters, the year first, and the digits are those of the input in
    their order. *)
Theorem format_date_eight_digits :
  forall (d : str),
    length d = 8 -> forallb is_digit_c d = true ->
    format_date d
      = take 4 d ++ py "-" ++ take 2 (drop 4 d) ++ py "-" ++ drop 6 d
    /\ length (format_date d) = 10
    /\ slice_to 4 (format_date d) = take 4 d
    /\ remove_c "-" (format_date d) = d.
Proof.
  intros d L D.
  destruct (eight_digits d L D) as (a & b & c & e & f & g & h & i & -> & Hd).
  digits_of Hd.
  assert (format_date [a; b; c; e; f; g; h; i]
          = [a; b; c; e; "-"; f; g; "-"; h; i]%char) as E.
  { unfold format_date. cbn [truthy negb].
    assert (strip [a; b; c; e; f; g; h; i] = [a; b; c; e; f; g; h; i]) as ->.
    { unfold strip, strip_by, rstrip_by. cbn [lstrip_by].
      rewrite (digit_not_space a) by assumption. cbn [rev app lstrip_by].
      rewrite (digit_not_space i) by assumption. reflexivity. }
    unfold isdigit. rewrite D. reflexivity. }
  rewrite E. repeat split.
  unfold remove_c. cbn [List.filter].
  rewrite (digit_not_hyphen a), (digit_not_hyphen b), (digit_not_hyphen c),
    (digit_not_hyphen e), (digit_not_hyphen f), (digit_not_hyphen g),
    (digit_not_hyphen h), (digit_not_hyphen i) by assumption.
  reflexivity.
Qed.

Lemma format_date_eight_digits_witness :
  format_date "20240131" = py "2024-01-31"
  /\ remove_c "-" (format_date "20240131") = py "20240131".
Proof.
  destruct (format_date_eight_digits "20240131") as (E & _ & _ & R);
    [reflexivity | reflexivity |].
  split; [exact E | exact R].
Defined.

Lemma format_date_else d :
  ((length (strip d) =? 8) && isdigit (strip d)) = false ->
  format_date d = strip d.
Proof.
  intros H. unfold format_date. destruct d as [|c t]; [reflexivity|].
  cbn [truthy negb]. rewrite H. reflexivity.
Qed.

(** X4: formatting a date twice gives what formatting it once gives,
    whether it was rewritten or only trimmed. *)
Theorem format_date_idempotent :
  forall (d : str), format_date (format_date d) = format_date d.
Proof.
  intros d.
  destruct ((length (strip d) =? 8) && isdigit (strip d)) eqn:C.
  - apply andb_true_iff in C as [L D]. apply Nat.eqb_eq in L.
    unfold isdigit in D. apply andb_true_iff in D as [_ D].
    destruct (eight_digits _ L D) as (a & b & c & e & f & g & h & i & E & Hd).
    digits_of Hd.
    assert (format_date d = [a; b; c; e; "-"; f; g; "-"; h; i]%char) as ->.
    { unfold format_date. destruct d as [|x t]; [discriminate E|].
      cbn [truthy negb]. rewrite E. unfold isdigit. cbn [length Nat.eqb negb andb].
      rewrite <- E, D, E. reflexivity. }
    assert (strip [a; b; c; e; "-"; f; g; "-"; h; i]%char
            = [a; b; c; e; "-"; f; g; "-"; h; i]%char) as S.
    { unfold strip, strip_by, rstrip_by. cbn [lstrip_by].
      rewrite (digit_not_space a) by assumption. cbn [rev app lstrip_by].
      rewrite (digit_not_space i) by assumption. reflexivity. }
    transitivity (strip [a; b; c; e; "-"; f; g; "-"; h; i]%char); [|exact S].
    apply format_date_else. rewrite S. reflexivity.
  - rewrite (format_date_else d C).
    rewrite (format_date_else (strip d)) by (rewrite strip_idem; exact C).
    apply strip_idem.
Qed.

(** ** The cleaning pipeline *)

Lemma assign_ids_fmap {B} (f : PatentRecord -> B) start df :
  (forall v r, f (set_ResourceId v r) = f r) ->
  f <$> assign_ids start df = f <$> df.
Proof.
  intros Hf. revert start. induction df as [|r df IH]; intros start;
    [reflexivity|].
  cbn [assign_ids]. rewrite !fmap_cons, IH, Hf. reflexivity.
Qed.

Lemma assign_ids_Forall (P : PatentRecord -> Prop) start df :
  (forall v r, P r -> P (set_ResourceId v r)) ->
  Forall P df -> Forall P (assign_ids start df).
Proof.
  intros HP H. revert start. induction H as [|r df Hr _ IH]; intros start;
    cbn [assign_ids]; constructor; auto.
Qed.

Lemma remove_non_english_sublist df : _remove_non_english df `sublist_of` df.
Proof. apply sublist_filter. Qed.

Lemma assign_ids_ids start df :
  ResourceId <$> assign_ids start df
  = (fun i => (start + Z.of_nat i)%Z) <$> seq 0 (length df).
Proof. exact (assign_ids_ResourceId start df). Qed.

(** The columns of the frame after the date step: one more, none less. *)
Lemma has_col_after_dates columns col :
  col <> "PatentYear"%string ->
  has_col (columns_after_dates columns) col = has_col columns col.
Proof.
  intros Hne. unfold columns_after_dates.
  destruct (has_col columns "ApplicationDate"); [|reflexivity].
  unfold has_col. apply bool_decide_ext. rewrite elem_of_cons. tauto.
Qed.

Lemma has_col_year_after_dates columns :
  has_col columns "ApplicationDate" = true ->
  has_col (columns_after_dates columns) "PatentYear" = true.
Proof.
  intros H. unfold columns_after_dates. rewrite H.
  unfold has_col. apply bool_decide_eq_true, elem_of_cons. left. reflexivity.
Qed.

(** A frame without columns has no result. *)
Lemma clean_nil columns today : clean columns today [] = None.
Proof. reflexivity. Qed.

(** What [clean] returns, when it returns. *)
Lemma clean_some columns today patents out :
  clean columns today patents = Some out ->
  patents <> []
  /\ has_col columns "Title" = true
  /\ has_col columns "ApplicationNumber" = true
  /\ out = _ensure_columns (columns_after_dates columns)
             (_add_standard_columns_in (columns_after_dates columns) today
                (_deduplicate (cleaned_steps columns patents))).
Proof.
  destruct patents as [|r patents]; [discriminate|].
  unfold clean.
  destruct (has_col columns "Title") eqn:T; [|discriminate].
  rewrite has_col_after_dates by discriminate.
  destruct (has_col columns "ApplicationNumber") eqn:N; [|discriminate].
  cbn [negb]. intros [= <-]. repeat split. discriminate.
Qed.

(** And when it does not. *)
Lemma clean_none columns today patents :
  clean columns today patents = None ->
  patents = [] \/ has_col columns "Title" = false
  \/ has_col columns "ApplicationNumber" = false.
Proof.
  destruct patents as [|r patents]; [left; reflexivity|].
  unfold clean.
  destruct (has_col columns "Title") eqn:T; [|right; left; reflexivity].
  rewrite has_col_after_dates by discriminate.
  destruct (has_col columns "ApplicationNumber") eqn:N;
    [discriminate | right; right; reflexivity].
Qed.

Lemma cleaned_steps_length columns patents :
  length (cleaned_steps columns patents) <= length patents.
Proof.
  unfold cleaned_steps, _format_dates_in, _format_dates,
    _standardize_institutions_in, _clean_text_fields_in.
  destruct (has_col columns "ApplicationDate"); rewrite !length_map;
    apply sublist_length, remove_non_english_sublist.
Qed.

Lemma add_standard_columns_length columns today df :
  length (_add_standard_columns_in columns today df) = length df.
Proof.
  unfold _add_standard_columns_in, _add_standard_columns.
  destruct (has_col columns "ResourceId");
    rewrite length_map, ?assign_ids_length; reflexivity.
Qed.

Lemma clean_length columns today patents out :
  clean columns today patents = Some out -> length out <= length patents.
Proof.
  intros H. apply clean_some in H as (_ & _ & _ & ->).
  unfold _ensure_columns. rewrite length_map, add_standard_columns_length.
  etransitivity; [apply sublist_length, deduplicate_sublist|].
  apply cleaned_steps_length.
Qed.

(** The two last steps leave a column the frame has as it is; the
    identifiers apart, which [_add_standard_columns] may set. *)
Lemma last_steps_fmap {B} (f : PatentRecord -> B) columns today df :
  (forall r, f (ensure_row columns (add_standard_row columns today r)) = f r) ->
  (forall v r, f (set_ResourceId v r) = f r) ->
  f <$> _ensure_columns columns (_add_standard_columns_in columns today df)
  = f <$> df.
Proof.
  intros H1 H2. unfold _ensure_columns, _add_standard_columns_in.
  change (@map PatentRecord PatentRecord) with (@fmap list _ PatentRecord PatentRecord).
  rewrite <- !list_fmap_compose.
  transitivity (f <$> (if has_col columns "ResourceId" then df
                       else _add_standard_columns df)).
  - apply list_fmap_ext. intros i r _. apply H1.
  - destruct (has_col columns "ResourceId"); [reflexivity|].
    apply assign_ids_fmap, H2.
Qed.

Lemma last_steps_ids columns today df :
  ResourceId <$> _ensure_columns columns (_add_standard_columns_in columns today df)
  = if has_col columns "ResourceId" then ResourceId <$> df
    else (fun i => (50000 + Z.of_nat i)%Z) <$> seq 0 (length df).
Proof.
  unfold _ensure_columns, _add_standard_columns_in.
  change (@map PatentRecord PatentRecord) with (@fmap list _ PatentRecord PatentRecord).
  rewrite <- !list_fmap_compose.
  transitivity (ResourceId <$> (if has_col columns "ResourceId" then df
                                else _add_standard_columns df)).
  - apply list_fmap_ext. reflexivity.
  - destruct (has_col columns "ResourceId"); [reflexivity|].
    apply assign_ids_ids.
Qed.

Lemma cleaned_steps_ids columns patents :
  ResourceId <$> cleaned_steps columns patents
  = ResourceId <$> _remove_non_english patents.
Proof.
  unfold cleaned_steps, _format_dates_in, _format_dates,
    _standardize_institutions_in, _clean_text_fields_in.
  change (@map PatentRecord PatentRecord) with (@fmap list _ PatentRecord PatentRecord).
  destruct (has_col columns "ApplicationDate");
    rewrite <- !list_fmap_compose; apply list_fmap_ext; reflexivity.
Qed.

(** X6: what [clean] returns.  It returns a frame exactly when the
    batch is not empty and has the Title and the ApplicationNumber
    column; otherwise it raises.  The frame
    has no more rows than the batch, no two rows with the same
    ApplicationNumber or the same title key, and in every row Title,
    Abstract and ApplicationNumber are trimmed.  With an ApplicationDate
    column PatentYear is the first 4 characters of ApplicationDate.
    Without a ResourceId column the rows are numbered 50000, 50001, ...
    in their order; with one, the identifiers are those the kept rows
    came with. *)
Theorem clean_output_invariants :
  forall (columns : list string) (today : str) (patents : DataFrame),
    match clean columns today patents with
    | Some out =>
        (patents <> [] /\ has_col columns "Title" = true
         /\ has_col columns "ApplicationNumber" = true)
        /\ length out <= length patents
        /\ NoDup (ApplicationNumber <$> out)
        /\ NoDup (title_norm <$> out)
        /\ Forall trimmed_row out
        /\ (has_col columns "ApplicationDate" = true ->
            Forall (fun r => PatentYear r = slice_to 4 (ApplicationDate r)) out)
        /\ (if has_col columns "ResourceId"
            then ResourceId <$> out `sublist_of` ResourceId <$> patents
            else ResourceId <$> out
                 = (fun i => (50000 + Z.of_nat i)%Z) <$> seq 0 (length out))
    | None =>
        patents = [] \/ has_col columns "Title" = false
        \/ has_col columns "ApplicationNumber" = false
    end.
Proof.
  intros columns today patents.
  destruct (clean columns today patents) as [out|] eqn:E;
    [|apply (clean_none columns today), E].
  pose proof (clean_length _ _ _ _ E) as Hlen.
  apply clean_some in E as (Hne & T & N & ->).
  set (cols := columns_after_dates columns).
  set (steps := cleaned_steps columns patents).
  destruct (deduplicate_keys_NoDup steps) as [N1 N2].
  assert (has_col cols "Title" = true) as T'
    by (unfold cols; rewrite has_col_after_dates by discriminate; exact T).
  assert (has_col cols "ApplicationNumber" = true) as N'
    by (unfold cols; rewrite has_col_after_dates by discriminate; exact N).
  assert (forall r, r ∈ _ensure_columns cols
                          (_add_standard_columns_in cols today (_deduplicate steps)) ->
            exists v x, x ∈ steps
              /\ r = ensure_row cols (add_standard_row cols today x)
                 \/ x ∈ steps
              /\ r = ensure_row cols
                       (add_standard_row cols today (set_ResourceId v x))) as Hrow.
  { intros r Hr. unfold _ensure_columns, _add_standard_columns_in in Hr.
    apply list_elem_of_In, in_map_iff in Hr as (r1 & <- & Hr).
    apply in_map_iff in Hr as (r2 & <- & Hr). apply list_elem_of_In in Hr.
    destruct (has_col cols "ResourceId").
    - exists 0%Z, r2. left. split; [|reflexivity].
      apply (elem_of_sublist _ _ _ Hr (deduplicate_sublist steps)).
    - unfold _add_standard_columns in Hr.
      assert (forall start df x, x ∈ assign_ids start df ->
                exists v y, y ∈ df /\ x = set_ResourceId v y) as A.
      { clear. intros start df. revert start.
        induction df as [|y df IH]; intros start x Hx; [inversion Hx|].
        cbn [assign_ids] in Hx. apply elem_of_cons in Hx as [->|Hx].
        - exists start, y. split; [apply elem_of_cons; left|]; reflexivity.
        - destruct (IH _ _ Hx) as (v & z & Hz & ->). exists v, z.
          split; [apply elem_of_cons; right; exact Hz | reflexivity]. }
      destruct (A _ _ _ Hr) as (v & y & Hy & ->).
      exists v, y. right. split; [|reflexivity].
      apply (elem_of_sublist _ _ _ Hy (deduplicate_sublist steps)). }
  split; [repeat split; assumption|].
  split; [exact Hlen|]. split; [|split; [|split; [|split]]].
  - rewrite last_steps_fmap; [exact N1| |reflexivity].
    intros r. cbn [ApplicationNumber ensure_row add_standard_row].
    rewrite N'. reflexivity.
  - rewrite last_steps_fmap; [exact N2| |reflexivity].
    intros r. unfold title_norm. cbn [Title ensure_row add_standard_row].
    rewrite T'. reflexivity.
  - apply Forall_forall. intros r Hr.
    destruct (Hrow r Hr) as (v & x & [[Hx ->]|[Hx ->]]);
      unfold steps, cleaned_steps, _format_dates_in, _format_dates,
        _standardize_institutions_in, _clean_text_fields_in in Hx;
      destruct (has_col columns "ApplicationDate");
      apply list_elem_of_In in Hx;
      repeat (apply in_map_iff in Hx as (? & <- & Hx));
      unfold trimmed_row;
      cbn [Title Abstract ApplicationNumber ensure_row add_standard_row
           format_dates_row standardize_row_in clean_text_row_in set_ResourceId];
      rewrite T', N'; unfold cols;
      rewrite (has_col_after_dates columns "Abstract") by discriminate;
      unfold on_col; rewrite T, N;
      destruct (has_col columns "Abstract");
      rewrite !clean_text_strip, !strip_idem; repeat split.
  - intros D. apply Forall_forall. intros r Hr.
    assert (has_col cols "ApplicationDate" = true) as D'
      by (unfold cols; rewrite has_col_after_dates by discriminate; exact D).
    assert (has_col cols "PatentYear" = true) as Y'
      by (apply has_col_year_after_dates, D).
    destruct (Hrow r Hr) as (v & x & [[Hx ->]|[Hx ->]]);
      unfold steps, cleaned_steps, _format_dates_in, _format_dates in Hx;
      rewrite D in Hx;
      apply list_elem_of_In, in_map_iff in Hx as (? & <- & _);
      cbn [PatentYear ApplicationDate ensure_row add_standard_row
           format_dates_row set_ResourceId];
      rewrite D', Y'; reflexivity.
  - rewrite last_steps_ids.
    assert (length (_ensure_columns cols
                      (_add_standard_columns_in cols today (_deduplicate steps)))
            = length (_deduplicate steps)) as ->.
    { unfold _ensure_columns.
      rewrite length_map, add_standard_columns_length. reflexivity. }
    unfold cols. rewrite has_col_after_dates by discriminate.
    destruct (has_col columns "ResourceId"); [|reflexivity].
    etransitivity; [apply fmap_sublist, deduplicate_sublist|].
    unfold steps. rewrite cleaned_steps_ids.
    apply fmap_sublist, remove_non_english_sublist.
Qed.

(** ** Name fields *)

(** X7: the entries a name field is joined from are standardised
    parts of the raw field, none is empty, each has a key of at least 2
    characters, and no two have the same key. *)
Theorem name_field_entries_distinct :
  forall (value : str),
    let entries := name_loop standardize_name (split_on ";" value) ∅ [] in
    clean_name_field value = join "; " entries
    /\ NoDup (norm_key <$> entries)
    /\ Forall (fun p => p <> [] /\ 2 <= length (norm_key p)) entries
    /\ Forall (fun p => exists part,
                 part ∈ split_on ";" value /\ p = standardize_name part)
         entries.
Proof.
  intros value entries.
  assert (clean_name_field value = join "; " entries) as E.
  { unfold clean_name_field, clean_name_field_with, entries.
    destruct value; reflexivity. }
  split; [exact E|]. unfold entries. clear E entries.
  rewrite name_loop_keep_first, app_nil_l.
  rewrite filter_all by (intros p; apply not_elem_of_empty).
  set (parts := standardize_name <$> split_on ";" value).
  set (kept := filter (fun p => 2 <= length (norm_key p))
                 (filter (fun p => p <> []) parts)).
  assert (forall p, p ∈ keep_first norm_key kept ->
                    (2 <= length (norm_key p) /\ p <> []) /\ p ∈ parts) as K.
  { intros p Hp.
    pose proof (elem_of_sublist _ _ _ Hp (keep_first_sublist norm_key kept))
      as Hk. clear Hp. rename Hk into Hp.
    unfold kept in Hp.
    apply list_elem_of_filter in Hp as [H2 Hp].
    apply list_elem_of_filter in Hp as [H0 Hp]. auto. }
  split; [apply keep_first_NoDup|]. split.
  - apply Forall_forall. intros p Hp. destruct (K p Hp) as [[? ?] _]. auto.
  - apply Forall_forall. intros p Hp. destruct (K p Hp) as [_ Hin].
    unfold parts in Hin. apply list_elem_of_fmap in Hin as (part & -> & Hpart).
    exists part. auto.
Qed.

Lemma Forall_bool_decide {A} (P : A -> Prop) `{!forall x, Decision (P x)}
    (l : list A) :
  forallb (fun x => bool_decide (P x)) l = true -> Forall P l.
Proof.
  intros Hb. apply Forall_forall. intros x Hx. rewrite forallb_forall in Hb.
  apply list_elem_of_In, Hb in Hx. apply bool_decide_eq_true in Hx. exact Hx.
Qed.

(** X8: every canonical name of the table is a fixed point of the
    standardiser, as a name and as a one-entry name field, so a field
    already canonical is not changed when the merge standardises it
    again. *)
Theorem canonical_names_are_fixed :
  Forall (fun e : regex * list ascii =>
            standardize_name (snd e) = snd e
            /\ clean_name_field (snd e) = snd e)
    INSTITUTION_STANDARDS.
Proof.
  apply (Forall_bool_decide
           (fun e : regex * list ascii =>
              standardize_name (snd e) = snd e
              /\ clean_name_field (snd e) = snd e)).
  vm_compute. reflexivity.
Qed.

Lemma find_standard_In table s standard :
  find_standard table s = Some standard ->
  exists e, In e table /\ snd e = standard.
Proof.
  induction table as [|[p0 s0] table IH]; simpl; [discriminate|].
  destruct (re_match false p0 s).
  - intros [= <-]. exists (p0, s0). auto.
  - intros H. destruct (IH H) as (e & ? & ?). exists e. auto.
Qed.

Lemma canonical_names_trimmed :
  Forall (fun e : regex * list ascii => strip (snd e) = snd e)
    INSTITUTION_STANDARDS.
Proof.
  apply (Forall_bool_decide
           (fun e : regex * list ascii => strip (snd e) = snd e)).
  vm_compute. reflexivity.
Qed.

(** X9: a standardised name never begins or ends with white space. *)
Theorem standardize_name_is_trimmed :
  forall (name : str), strip (standardize_name name) = standardize_name name.
Proof.
  intros name. unfold standardize_name, standardize_with.
  destruct (truthy name); [|reflexivity]. cbn [negb].
  destruct (truthy (cleaned_name name)); [|reflexivity]. cbn [negb].
  destruct (is_garbage _ _); [reflexivity|].
  destruct (find_standard _ _) as [standard|] eqn:F.
  - apply find_standard_In in F as (e & He & <-).
    pose proof canonical_names_trimmed as T.
    rewrite Forall_forall in T. apply T, list_elem_of_In, He.
  - apply strip_idem.
Qed.

(** ** The application-number key *)

Lemma not_sep_lower c :
  negb (mem_c " .-" (lower_c c)) = negb (mem_c " .-" c).
Proof.
  apply eqb_prop. revert c.
  apply (ascii_all (fun c => Bool.eqb (negb (mem_c " .-" (lower_c c)))
                                      (negb (mem_c " .-" c)))).
  vm_compute. reflexivity.
Qed.

Lemma upper_lower_c c : upper_c (lower_c c) = upper_c c.
Proof.
  apply Ascii.eqb_eq. revert c.
  apply (ascii_all (fun c => Ascii.eqb (upper_c (lower_c c)) (upper_c c))).
  vm_compute. reflexivity.
Qed.

Lemma upper_c_idem c : upper_c (upper_c c) = upper_c c.
Proof.
  apply Ascii.eqb_eq. revert c.
  apply (ascii_all (fun c => Ascii.eqb (upper_c (upper_c c)) (upper_c c))).
  vm_compute. reflexivity.
Qed.

Lemma not_sep_upper c :
  negb (mem_c " .-" c) = true -> negb (mem_c " .-" (upper_c c)) = true.
Proof.
  assert (forall c, implb (negb (mem_c " .-" c))
                      (negb (mem_c " .-" (upper_c c))) = true) as A.
  { apply ascii_all. vm_compute. reflexivity. }
  intros H. specialize (A c). rewrite H in A. exact A.
Qed.

Lemma app_key_chars_lower x : app_key_chars (lower x) = app_key_chars x.
Proof.
  unfold app_key_chars, lower, upper. induction x as [|c x IH]; [reflexivity|].
  cbn [map List.filter]. rewrite not_sep_lower.
  destruct (negb (mem_c " .-" c)); [|exact IH].
  cbn [map]. rewrite IH, upper_lower_c. reflexivity.
Qed.

(** The characters of a key are fixed by the rewriting that made it. *)
Lemma app_key_chars_fixed x : app_key_chars (app_key_chars x) = app_key_chars x.
Proof.
  unfold app_key_chars, upper. induction x as [|c x IH]; [reflexivity|].
  cbn [List.filter]. destruct (negb (mem_c " .-" c)) eqn:E; [|exact IH].
  cbn [map List.filter]. rewrite (not_sep_upper c E).
  cbn [map]. rewrite IH, upper_c_idem. reflexivity.
Qed.

(** X10: the application-number key does not see case, nor a space,
    period or hyphen wherever it stands, and it is its own key: numbers
    written "EP 123 A1", "ep-123.a1" and "EP123A1" are one number to the
    merge. *)
Theorem normalize_app_num_insensitive :
  forall (x a b : str),
    normalize_app_num (lower x) = normalize_app_num x
    /\ normalize_app_num (a ++ py " " ++ b) = normalize_app_num (a ++ b)
    /\ normalize_app_num (a ++ py "." ++ b) = normalize_app_num (a ++ b)
    /\ normalize_app_num (a ++ py "-" ++ b) = normalize_app_num (a ++ b)
    /\ normalize_app_num (normalize_app_num x) = normalize_app_num x.
Proof.
  intros x a b. rewrite !normalize_app_num_spec.
  assert (forall sep : string,
             List.filter (fun c => negb (mem_c " .-" c)) (py sep) = [] ->
             app_key_chars (a ++ py sep ++ b) = app_key_chars (a ++ b)) as S.
  { intros sep Hs. unfold app_key_chars.
    rewrite !List.filter_app, Hs. reflexivity. }
  split; [rewrite app_key_chars_lower; reflexivity|].
  split; [rewrite (S " "%string) by reflexivity; reflexivity|].
  split; [rewrite (S "."%string) by reflexivity; reflexivity|].
  split; [rewrite (S "-"%string) by reflexivity; reflexivity|].
  rewrite <- (normalize_app_num_spec (strip (app_key_chars x))).
  rewrite normalize_app_num_strip, normalize_app_num_spec.
  rewrite app_key_chars_fixed. reflexivity.
Qed.

Example normalize_app_num_ex1 :
  map normalize_app_num [py "EP 123 A1"; py "ep-123.a1"; py " EP123A1 "]
  = [py "EP123A1"; py "EP123A1"; py "EP123A1"].
Proof. vm_compute. reflexivity. Qed.

(** * Properties of the organisation tests *)

Ltac in_list := repeat first [left; reflexivity | right].

Ltac split_ifs :=
  repeat match goal with
         | |- context [if ?b then _ else _] => destruct b eqn:?
         end.

(** X11: a non-empty name whose lower-cased form contains one of the
    organisation keywords anywhere, inside a word as well, is an
    organisation. *)
Theorem keyword_substring_is_organization :
  forall (name : str) (keyword : string),
    name <> [] ->
    In keyword ORGANIZATION_KEYWORDS ->
    contains keyword (strip (lower name)) = true ->
    _is_organization name = true.
Proof.
  intros name keyword Hne Hin Hc. unfold _is_organization.
  destruct name as [|c t]; [congruence|]. cbn [truthy negb].
  assert (existsb (fun keyword : string =>
                     contains keyword (strip (lower (c :: t))))
            ORGANIZATION_KEYWORDS = true) as ->; [|reflexivity].
  apply existsb_exists. exists keyword. auto.
Qed.

(** "Thomas Nicolas" contains the keyword "as". *)
Lemma keyword_substring_is_organization_witness :
  _is_organization "Thomas Nicolas" = true.
Proof.
  apply (keyword_substring_is_organization "Thomas Nicolas" "as"%string).
  - discriminate.
  - unfold ORGANIZATION_KEYWORDS. in_list.
  - vm_compute. reflexivity.
Defined.

(** X12: the person heuristic only applies to names of 2 to 4 words
    without a digit: a non-empty name of one word, of more than 4 words or
    with a digit is an organisation. *)
Theorem organization_by_default :
  forall (name : str),
    name <> [] ->
    length (split_ws name) < 2 \/ 4 < length (split_ws name)
    \/ existsb is_digit_c name = true ->
    _is_organization name = true.
Proof.
  intros name Hne H. unfold _is_organization.
  destruct name as [|c t]; [congruence|]. cbn [truthy negb].
  set (name := c :: t) in *.
  destruct (existsb _ ORGANIZATION_KEYWORDS); [reflexivity|].
  destruct (existsb _ QATAR_ORGANIZATIONS); [reflexivity|].
  destruct H as [H|[H|H]].
  - apply Nat.leb_gt in H. rewrite H. reflexivity.
  - apply Nat.leb_gt in H. rewrite H, andb_false_r. reflexivity.
  - rewrite H. cbn [negb]. rewrite !andb_false_r. reflexivity.
Qed.

Lemma organization_by_default_witness :
  _is_organization "Zyx9 Wvt" = true.
Proof.
  apply (organization_by_default "Zyx9 Wvt"); [discriminate|].
  right. right. reflexivity.
Defined.

(** The person heuristic at work, and out of work. *)
Example is_organization_ex3 :
  map _is_organization [py "Zyx Wvt"; py "Zyx9 Wvt"; py "Zyxwvt"; py "a b d e f"]
  = [false; true; true; true].
Proof. vm_compute. reflexivity. Qed.

(** X13: a name with "qatar" in it, in any case, is a Qatar
    organisation whatever the residence and country, even with a foreign
    suffix or a foreign company name in it. *)
Theorem qatar_in_name_is_accepted :
  forall (name residence country : str),
    contains "qatar" (strip (lower name)) = true ->
    _is_qatar_organization name residence country = true.
Proof.
  intros name r c Hq.
  assert (name <> []) as Hne by (intros ->; discriminate Hq).
  assert (_is_organization name = true) as Ho.
  { unfold _is_organization. destruct name as [|x t]; [congruence|].
    cbn [truthy negb].
    assert (existsb (fun keyword : string =>
                       contains keyword (strip (lower (x :: t))))
              ORGANIZATION_KEYWORDS = true) as ->; [|reflexivity].
    apply existsb_exists. exists "qatar"%string. split; [|exact Hq].
    unfold ORGANIZATION_KEYWORDS. in_list. }
  unfold _is_qatar_organization. rewrite Ho.
  destruct name as [|x t]; [congruence|]. cbn [truthy negb].
  unfold no_qatar_no_doha. rewrite Hq. cbn [negb andb].
  rewrite !andb_false_r.
  assert (existsb (fun identifier : string =>
                     contains identifier (strip (lower (x :: t))))
            qatar_identifiers = true) as ->; [|reflexivity].
  apply existsb_exists. exists "qatar"%string. split; [|exact Hq].
  unfold qatar_identifiers. in_list.
Qed.

Lemma qatar_in_name_is_accepted_witness :
  _is_qatar_organization "Toyota QATAR GmbH" "DE" "JP" = true.
Proof.
  apply (qatar_in_name_is_accepted "Toyota QATAR GmbH" "DE" "JP").
  vm_compute. reflexivity.
Defined.

(** What is accepted without metadata is accepted with any. *)
Lemma qatar_without_metadata name residence country :
  _is_qatar_organization name "" "" = true ->
  _is_qatar_organization name residence country = true.
Proof.
  unfold _is_qatar_organization.
  destruct (negb (truthy name)); [discriminate|].
  destruct (negb (_is_organization name)); [discriminate|].
  destruct (_ && no_qatar_no_doha _); [discriminate|].
  destruct (_ && no_qatar_no_doha _); [discriminate|].
  destruct (existsb _ qatar_identifiers); [reflexivity|].
  destruct (existsb _ edu_city_names); [|intros H; exact H].
  vm_compute. discriminate.
Qed.

(** X14: the residence and the country can only help: a name accepted
    without metadata is accepted with any, and a name accepted with some
    metadata is accepted with residence and country QA. *)
Theorem metadata_only_helps :
  forall (name residence country : str),
    _is_qatar_organization name residence country = true ->
    _is_qatar_organization name "QA" "QA" = true
    /\ (_is_qatar_organization name "" "" = true ->
        forall r c, _is_qatar_organization name r c = true).
Proof.
  intros name r c H. split.
  - revert H. unfold _is_qatar_organization.
    destruct (negb (truthy name)); [discriminate|].
    destruct (negb (_is_organization name)); [discriminate|].
    destruct (_ && no_qatar_no_doha _); [discriminate|].
    destruct (_ && no_qatar_no_doha _); [discriminate|].
    destruct (existsb _ qatar_identifiers); [reflexivity|].
    destruct (existsb _ edu_city_names); [|intros H; exact H].
    intros _. vm_compute. reflexivity.
  - intros H0 r' c'. apply qatar_without_metadata, H0.
Qed.

Lemma metadata_only_helps_witness :
  _is_qatar_organization "Georgetown University" "" "QA" = true
  /\ _is_qatar_organization "Georgetown University" "QA" "QA" = true.
Proof.
  assert (_is_qatar_organization "Georgetown University" "" "QA" = true) as H
      by (vm_compute; reflexivity).
  split; [exact H|].
  exact (proj1 (metadata_only_helps "Georgetown University" "" "QA" H)).
Defined.

(** X15: the residence and the country are consulted only for a name
    of the Education City list that carries no Qatar identifier: for a name
    with an identifier, or with no Education City name in it, the answer is
    the same under any metadata. *)
Theorem metadata_only_for_education_city :
  forall (name r c r' c' : str),
    existsb (fun identifier : string =>
               contains identifier (strip (lower name)))
      qatar_identifiers = true
    \/ existsb (fun edu_name : string => contains edu_name (strip (lower name)))
         edu_city_names = false ->
    _is_qatar_organization name r c = _is_qatar_organization name r' c'.
Proof.
  intros name r c r' c' H. unfold _is_qatar_organization.
  destruct (negb (truthy name)); [reflexivity|].
  destruct (negb (_is_organization name)); [reflexivity|].
  destruct (_ && no_qatar_no_doha _); [reflexivity|].
  destruct (_ && no_qatar_no_doha _); [reflexivity|].
  destruct H as [-> | ->]; [reflexivity|].
  destruct (existsb _ qatar_identifiers); reflexivity.
Qed.

Lemma metadata_only_for_education_city_witness :
  _is_qatar_organization "Harvard Medical School" "QA" "QA"
  = _is_qatar_organization "Harvard Medical School" "" ""
  /\ _is_qatar_organization "Weill Cornell Medicine-Qatar" "US" ""
     = _is_qatar_organization "Weill Cornell Medicine-Qatar" "" "QA".
Proof.
  split.
  - apply (metadata_only_for_education_city "Harvard Medical School").
    right. vm_compute. reflexivity.
  - apply (metadata_only_for_education_city "Weill Cornell Medicine-Qatar").
    left. vm_compute. reflexivity.
Defined.

(** X16: a name with a foreign-company suffix or the name of a listed
    foreign company, and with neither "qatar" nor "doha" in it, is rejected
    whatever the residence and country. *)
Theorem foreign_name_is_rejected :
  forall (name residence country : str),
    existsb (fun suffix : string =>
               endswith (strip (lower name)) (strip suffix)
               || contains suffix (strip (lower name)))
      foreign_suffixes
    || existsb (fun company : string => contains company (strip (lower name)))
         foreign_companies = true ->
    no_qatar_no_doha (strip (lower name)) = true ->
    _is_qatar_organization name residence country = false.
Proof.
  intros name r c H N. unfold _is_qatar_organization. rewrite N, !andb_true_r.
  destruct (negb (truthy name)); [reflexivity|].
  destruct (negb (_is_organization name)); [reflexivity|].
  apply orb_true_iff in H as [-> | ->]; [reflexivity|].
  destruct (existsb _ foreign_suffixes); reflexivity.
Qed.

Lemma foreign_name_is_rejected_witness :
  _is_qatar_organization "Siemens Energy AG" "QA" "QA" = false.
Proof.
  apply (foreign_name_is_rejected "Siemens Energy AG" "QA" "QA");
    vm_compute; reflexivity.
Defined.

(** X17: a non-empty name of white space only is accepted as a Qatar
    organisation under any metadata: its trimmed form is the empty string,
    which every known organisation contains. *)
Theorem blank_name_is_qatar_organization :
  forall (name residence country : str),
    name <> [] -> strip (lower name) = [] ->
    _is_qatar_organization name residence country = true.
Proof.
  intros name r c Hne Hb. unfold _is_qatar_organization.
  rewrite (is_organization_blank name Hne Hb).
  destruct name as [|x t]; [congruence|]. cbn [truthy negb].
  rewrite Hb. vm_compute. reflexivity.
Qed.

Lemma blank_name_is_qatar_organization_witness :
  _is_qatar_organization "  " "US" "" = true.
Proof.
  apply (blank_name_is_qatar_organization "  " "US" "");
    [discriminate | reflexivity].
Defined.

(** X18: every organisation of QATAR_ORGANIZATIONS and every canonical
    name of the standardiser's table is an organisation, and a Qatar
    organisation under any residence and country. *)
Theorem known_organizations_are_accepted :
  Forall (fun org : string =>
            _is_organization org = true
            /\ forall r c, _is_qatar_organization org r c = true)
    QATAR_ORGANIZATIONS
  /\ Forall (fun e : regex * list ascii =>
               _is_organization (snd e) = true
               /\ forall r c, _is_qatar_organization (snd e) r c = true)
       INSTITUTION_STANDARDS.
Proof.
  assert (forall name : str,
             _is_organization name && _is_qatar_organization name "" "" = true ->
             _is_organization name = true
             /\ forall r c, _is_qatar_organization name r c = true) as K.
  { intros name H. apply andb_true_iff in H as [H1 H2]. split; [exact H1|].
    intros r c. apply qatar_without_metadata, H2. }
  split; apply Forall_forall; intros x Hx; apply K.
  - assert (forallb (fun org : string =>
                       _is_organization org && _is_qatar_organization org "" "")
              QATAR_ORGANIZATIONS = true) as F by (vm_compute; reflexivity).
    rewrite forallb_forall in F. apply F, list_elem_of_In, Hx.
  - assert (forallb (fun e : regex * list ascii =>
                       _is_organization (snd e)
                       && _is_qatar_organization (snd e) "" "")
              INSTITUTION_STANDARDS = true) as F by (vm_compute; reflexivity).
    rewrite forallb_forall in F.
    apply (F x), list_elem_of_In, Hx.
Qed.

(** * Properties of the Lens extractor *)

Lemma is_qatar_organization_empty r c : _is_qatar_organization [] r c = false.
Proof. reflexivity. Qed.

Lemma join_nil_iff sep (l : list str) :
  Forall (fun x => x <> []) l -> join sep l = [] <-> l = [].
Proof.
  intros H. destruct H as [|x t Hx _]; [tauto|].
  split; [|discriminate]. intros E. exfalso.
  destruct t as [|y t]; simpl in E; [auto|].
  destruct x; [auto | discriminate E].
Qed.

Lemma filter_truthy_nonempty (keep : Lens.Party -> bool) ps :
  Forall (fun x : str => x <> [])
    (map Lens.extracted_value
       (List.filter (fun q => truthy (Lens.extracted_value q) && keep q) ps)).
Proof.
  apply Forall_forall. intros x Hx.
  apply list_elem_of_In, in_map_iff in Hx as (q & <- & Hq).
  apply filter_In in Hq as [_ Hq]. apply andb_true_iff in Hq as [Hq _].
  destruct (Lens.extracted_value q); [discriminate | discriminate].
Qed.

(** The applicants kept by the parser are those the filter of
    [extract_all] looks for. *)
Lemma kept_applicants_iff patent :
  map Lens.extracted_value
    (List.filter
       (fun q => truthy (Lens.extracted_value q)
                 && _is_qatar_organization (Lens.extracted_value q)
                      (Lens.residence q) "")
       (Lens.applicants patent)) <> []
  <-> Lens._has_qatar_organization_applicant patent = true.
Proof.
  unfold Lens._has_qatar_organization_applicant.
  induction (Lens.applicants patent) as [|q ps IH]; [simpl; split; [tauto | discriminate]|].
  cbn [List.filter existsb].
  destruct (_is_qatar_organization (Lens.extracted_value q) (Lens.residence q) "")
    eqn:E.
  - assert (truthy (Lens.extracted_value q) = true) as ->.
    { destruct (Lens.extracted_value q); [discriminate E | reflexivity]. }
    simpl. split; [reflexivity | discriminate].
  - rewrite andb_false_r. simpl. exact IH.
Qed.

Lemma omap_length_le {A B} (f : A -> option B) (l : list A) :
  length (omap f l) <= length l.
Proof.
  induction l as [|x l IH]; [reflexivity|].
  cbn [omap list_omap]. destruct (f x); simpl; lia.
Qed.

Lemma filter_length_le {A} (f : A -> bool) (l : list A) :
  length (List.filter f l) <= length l.
Proof.
  induction l as [|x l IH]; [reflexivity|]. simpl.
  destruct (f x); simpl; lia.
Qed.

(** X20: a parsed patent has a non-empty Applicants field exactly when
    the raw patent has a Qatar organisation among its applicants, the test
    [extract_all] filters on. *)
Theorem parsed_applicants_iff_filter :
  forall (today : str) (patent : Lens.Raw) (parsed : Lens.Parsed),
    Lens._parse_patent today patent = Some parsed ->
    Lens.Applicants parsed <> []
    <-> Lens._has_qatar_organization_applicant patent = true.
Proof.
  intros today patent parsed H. unfold Lens._parse_patent in H.
  destruct (match Lens.invention_title patent with [] => false | _ => _ end);
    [discriminate|].
  injection H as <-. cbn [Lens.Applicants].
  rewrite <- kept_applicants_iff.
  rewrite join_nil_iff by apply filter_truthy_nonempty. reflexivity.
Qed.

Lemma parsed_applicants_iff_filter_witness :
  let patent :=
    Lens.mkRaw "US" "123" "A1" [Lens.mkText "fr" "Machin"; Lens.mkText "en" "Widget"]
      [] [Lens.mkParty "John Smith" "QA" ""; Lens.mkParty "Qatar University" "" ""]
      [] [] "2020-01-15" "" "000-111" in
  Lens.Applicants <$> Lens._parse_patent "2024-01-01" patent
    = Some (py "Qatar University")
  /\ Lens._has_qatar_organization_applicant patent = true.
Proof.
  cbv zeta. split; [vm_compute; reflexivity|].
  eapply (parsed_applicants_iff_filter "2024-01-01");
    [vm_compute; reflexivity | vm_compute; discriminate].
Defined.

(** X19: every record [extract_all] returns has a title, at least one
    applicant and one owner, an abstract of at most 2000 characters, a
    trimmed application number, the source "Lens" and the extraction date;
    its year is empty or the first 4 characters of its date; and there are
    no more records than raw patents. *)
Theorem lens_extract_all_invariants :
  forall (today : str) (raw_patents : list Lens.Raw),
    Forall (fun p =>
              Lens.Title p <> []
              /\ Lens.Applicants p <> []
              /\ Lens.Owners p <> []
              /\ length (Lens.Abstract p) <= 2000
              /\ strip (Lens.ApplicationNumber p) = Lens.ApplicationNumber p
              /\ Lens.Source p = py "Lens"
              /\ Lens.ExtractedDate p = today
              /\ (Lens.PatentYear p = []
                  \/ Lens.PatentYear p = take 4 (Lens.ApplicationDate p)))
      (Lens.extract_all today raw_patents)
    /\ length (Lens.extract_all today raw_patents) <= length raw_patents.
Proof.
  intros today raws. split.
  2: { unfold Lens.extract_all.
       etransitivity; [apply omap_length_le | apply filter_length_le]. }
  apply Forall_forall. intros p Hp. unfold Lens.extract_all in Hp.
  apply list_elem_of_omap in Hp as (raw & Hraw & Hp).
  apply list_elem_of_In, filter_In in Hraw as [_ Hhas].
  destruct (Lens._parse_patent today raw) as [parsed|] eqn:E; [|discriminate].
  destruct (truthy (Lens.Title parsed)) eqn:T; [|discriminate].
  injection Hp as <-.
  assert (Lens.Applicants parsed <> []) as Happ.
  { apply (proj2 (kept_applicants_iff raw)) in Hhas.
    unfold Lens._parse_patent in E.
    destruct (match Lens.invention_title raw with [] => false | _ => _ end);
      [discriminate|].
    injection E as <-. cbn [Lens.Applicants].
    rewrite join_nil_iff by apply filter_truthy_nonempty. exact Hhas. }
  split; [intros E0; rewrite E0 in T; discriminate|].
  split; [exact Happ|].
  unfold Lens._parse_patent in E.
  destruct (match Lens.invention_title raw with [] => false | _ => _ end);
    [discriminate|].
  injection E as <-.
  cbn [Lens.Applicants Lens.Owners Lens.Abstract Lens.ApplicationNumber
       Lens.Source Lens.ExtractedDate Lens.PatentYear Lens.ApplicationDate]
    in *.
  split; [|split; [|split; [|split; [|split]]]].
  - destruct (map Lens.extracted_value
                (List.filter _ (Lens.owners_all raw))) as [|o os] eqn:O;
      [exact Happ|].
    rewrite <- O. rewrite join_nil_iff by apply filter_truthy_nonempty.
    rewrite O. discriminate.
  - match goal with
    | |- length (if ?b then _ else _) <= _ => destruct b
    end; [rewrite length_take; lia | simpl; lia].
  - apply strip_idem.
  - reflexivity.
  - reflexivity.
  - split_ifs; first [left; reflexivity | right; reflexivity].
Qed.

Example lens_extract_all_ex1 :
  let good :=
    Lens.mkRaw "US" "123" "A1" [Lens.mkText "fr" "Machin"; Lens.mkText "en" "Widget"]
      [Lens.mkText "de" "Kurz"] [Lens.mkParty "Qatar University" "" ""]
      [Lens.mkParty "Jane Doe" "" ""] [] "2020-01-15" "ACTIVE" "000-111" in
  let untitled_in_english :=
    Lens.mkRaw "FR" "9" "B1" [Lens.mkText "fr" "Machin"] []
      [Lens.mkParty "Qatar University" "" ""] [] [] "" "" "" in
  let foreign :=
    Lens.mkRaw "US" "7" "A1" [Lens.mkText "en" "Gadget"] []
      [Lens.mkParty "Siemens AG" "QA" ""] [] [] "" "" "" in
  Lens.extract_all "2024-01-01" [foreign; good; untitled_in_english]
  = [Lens.mkParsed "US 123 A1" "2020-01-15" "2020" "Widget" "Kurz"
       "Qatar University" "Jane Doe" "Qatar University"
       "https://www.lens.org/lens/patent/000-111" "ACTIVE" "Lens" "2024-01-01"].
Proof. vm_compute. reflexivity. Qed.

(** * Properties of the run history *)

Lemma last_n_snoc {A} (n : nat) (l : list A) x :
  0 < n -> last (State.last_n n (l ++ [x])) = Some x.
Proof.
  intros Hn. unfold State.last_n. rewrite length_app. cbn [length].
  rewrite drop_app_le by lia. apply last_snoc.
Qed.

Lemma record_run_runs now stats st :
  State.runs (State.record_run now stats st)
  = State.last_n 100
      (State.runs st ++
       [State.mkRun now
          (default 0%Z (State.s_searched stats))
          (default 0%Z (State.s_extracted stats))
          (default 0%Z (State.s_new_added stats))
          (default 0%Z (State.s_duplicates_removed stats))
          (default 0%Z (State.s_total_after stats))
          (stats_source stats)]).
Proof.
  unfold State.record_run, stats_source. cbn [State.runs].
  destruct (100 <? _) eqn:E; [reflexivity|].
  apply Nat.ltb_ge in E. unfold State.last_n.
  rewrite (proj2 (Nat.sub_0_le _ _) E). reflexivity.
Qed.

(** X21: recording a run appends it as the last run and keeps the 100
    most recent runs at most, however long the history loaded from the file
    was: the history becomes the old one with the new run at its end,
    less as many of its oldest runs as it has above 100.  The run recorded
    is the one [get_last_run] returns, with the defaults of the missing
    statistics. *)
Theorem record_run_keeps_last_hundred :
  forall (now : str) (stats : State.Stats) (st : State.PipelineState),
    let st' := State.record_run now stats st in
    let run := State.mkRun now
                 (default 0%Z (State.s_searched stats))
                 (default 0%Z (State.s_extracted stats))
                 (default 0%Z (State.s_new_added stats))
                 (default 0%Z (State.s_duplicates_removed stats))
                 (default 0%Z (State.s_total_after stats))
                 (default "unknown"%string (State.s_source stats)) in
    State.runs st'
      = drop (S (length (State.runs st)) - 100) (State.runs st ++ [run])
    /\ length (State.runs st') = Nat.min 100 (S (length (State.runs st)))
    /\ State.get_last_run st' = Some run
    /\ State.last_run st' = Some now
    /\ State.total_patents st' = default 0%Z (State.s_total_after stats).
Proof.
  intros now stats st st' run. unfold st', run.
  split; [|split; [|split; [|split; reflexivity]]].
  - rewrite record_run_runs. unfold State.last_n, stats_source.
    rewrite length_app. cbn [length]. f_equal. lia.
  - rewrite record_run_runs. unfold State.last_n.
    rewrite length_drop, length_app. cbn [length]. lia.
  - unfold State.get_last_run. rewrite record_run_runs.
    rewrite last_n_snoc by lia.
    destruct (State.last_n _ _) eqn:E; [|reflexivity].
    exfalso. pose proof (last_n_snoc 100 (State.runs st)
                           (State.mkRun now
                              (default 0%Z (State.s_searched stats))
                              (default 0%Z (State.s_extracted stats))
                              (default 0%Z (State.s_new_added stats))
                              (default 0%Z (State.s_duplicates_removed stats))
                              (default 0%Z (State.s_total_after stats))
                              (stats_source stats))) as L.
    rewrite E in L. specialize (L ltac:(lia)). discriminate L.
Qed.

Lemma record_run_sources now stats st (k : string) :
  State.sources (State.record_run now stats st) !! k
  = if decide (stats_source stats = k)
    then Some (default 0 (State.sources st !! k)
               + default 0 (State.s_new_added stats))%Z
    else State.sources st !! k.
Proof.
  unfold State.record_run, stats_source. cbn [State.sources State.source
    State.new_patents_added].
  set (src := default "unknown"%string (State.s_source stats)).
  destruct (decide (src = k)) as [<-|Hne].
  - rewrite lookup_insert_eq.
    destruct (State.sources st !! src) as [v|] eqn:E.
    + rewrite E. reflexivity.
    + rewrite lookup_insert_eq. reflexivity.
  - rewrite lookup_insert_ne by exact Hne.
    destruct (State.sources st !! src) as [v|] eqn:E; [reflexivity|].
    rewrite lookup_insert_ne by exact Hne. reflexivity.
Qed.

Lemma replay_cons e events st :
  replay (e :: events) st
  = replay events (State.record_run (fst e) (snd e) st).
Proof. reflexivity. Qed.

(** X22: over any sequence of recorded runs, the count kept for a
    source grows by exactly what the runs of that source added (runs without
    a source count under "unknown"), runs dropped from the history included;
    and the history never grows beyond 100 runs, or beyond its length at the
    start if that was more. *)
Theorem replay_accumulates_sources :
  forall (events : list (str * State.Stats)) (st : State.PipelineState)
         (src : string),
    default 0%Z (State.sources (replay events st) !! src)
      = (default 0 (State.sources st !! src) + added_for src events)%Z
    /\ length (State.runs (replay events st))
       <= Nat.max 100 (length (State.runs st)).
Proof.
  intros events. induction events as [|e events IH]; intros st src.
  - simpl. split; lia.
  - rewrite replay_cons. cbn [added_for].
    destruct (IH (State.record_run (fst e) (snd e) st) src) as [IH1 IH2].
    split.
    + rewrite IH1, record_run_sources.
      destruct (decide (stats_source (snd e) = src)); simpl; lia.
    + etransitivity; [exact IH2|].
      rewrite record_run_runs. unfold State.last_n.
      rewrite length_drop, length_app. cbn [length]. lia.
Qed.

Example replay_ex1 :
  let run src n := (py "t", State.mkStats None None (Some n) None (Some 9%Z) src) in
  let st := replay [run (Some "EPO"%string) 3%Z; run None 2%Z;
                    run (Some "EPO"%string) 4%Z] State.default_state in
  (State.sources st !! "EPO"%string, State.sources st !! "unknown"%string,
   State.sources st !! "Lens"%string, length (State.runs st),
   State.total_patents st)
  = (Some 7%Z, Some 2%Z, None, 3, 9%Z).
Proof. vm_compute. reflexivity. Qed.

(** X23: for a positive limit the run history is the [limit] most
    recent runs, newest first (all of them when there are fewer). *)
Theorem run_history_positive_limit :
  forall (limit : Z) (st : State.PipelineState),
    (0 < limit)%Z ->
    State.get_run_history limit st
      = take (Z.to_nat limit) (rev (State.runs st))
    /\ length (State.get_run_history limit st)
       = Nat.min (Z.to_nat limit) (length (State.runs st)).
Proof.
  intros limit st H. unfold State.get_run_history, State.last_n.
  assert ((0 <? limit)%Z = true) as -> by (apply Z.ltb_lt; exact H).
  split.
  - symmetry. apply firstn_rev.
  - rewrite length_rev, length_drop. lia.
Qed.

Lemma run_history_positive_limit_witness :
  let run t := State.mkRun t 0 0 0 0 0 "EPO" in
  State.get_run_history 2 (State.mkState None [run "a"; run "b"; run "c"] 0 ∅)
  = [run "c"; run "b"].
Proof.
  cbv zeta.
  destruct (run_history_positive_limit 2
              (State.mkState None
                 [State.mkRun "a" 0 0 0 0 0 "EPO"; State.mkRun "b" 0 0 0 0 0 "EPO";
                  State.mkRun "c" 0 0 0 0 0 "EPO"] 0 ∅)) as [E _]; [lia|].
  rewrite E. reflexivity.
Defined.

(** X24: a limit of 0 does not give an empty history but the whole of
    it, newest first, and a negative limit [-k] drops the [k] oldest
    runs. *)
Theorem run_history_zero_limit :
  forall (st : State.PipelineState) (k : nat),
    State.get_run_history 0 st = rev (State.runs st)
    /\ State.get_run_history (- Z.of_nat k) st = rev (drop k (State.runs st)).
Proof.
  intros st k. unfold State.get_run_history. split; [reflexivity|].
  assert ((0 <? - Z.of_nat k)%Z = false) as -> by (apply Z.ltb_ge; lia).
  rewrite Z.opp_involutive, Nat2Z.id. reflexivity.
Qed.

(** * Properties of the update step *)


(** * Further properties of the standardiser and of the merge *)

Lemma star_loop_S {A} body (k : nat -> str -> option A) n i s :
  star_loop body k (S n) i s
  = orelse (body (fun i' s' => if i <? i' then star_loop body k n i' s' else None)
              i s)
      (k i s).
Proof. reflexivity. Qed.

(** A white-space repetition followed by something that cannot start the
    rest of the subject does not match. *)
Lemma star_space_none {A} (k : nat -> str -> option A) (P : ascii -> Prop) :
  (forall i s, Forall P s -> k i s = None) ->
  forall n i s, Forall P s -> star_loop (m false Space) k n i s = None.
Proof.
  intros Hk. induction n as [|n IH]; intros i s Hs; [apply Hk, Hs|].
  rewrite star_loop_S, (Hk i s Hs). cbn [m].
  destruct Hs as [|x t Hx Ht]; [reflexivity|].
  cbn [one_char]. destruct (isspace_c x); [|reflexivity].
  assert ((i <? S i) = true) as -> by (apply Nat.ltb_lt; lia).
  pose proof (IH (S i) t Ht) as E. cbn [m] in E. rewrite E. reflexivity.
Qed.

(** Without an opening bracket the country-code pattern matches
    nowhere, and there is nothing to remove. *)
Lemma country_code_needs_bracket {A} (k : nat -> str -> option A) i s :
  Forall (fun c => c <> "["%char) s -> m false country_code k i s = None.
Proof.
  intros Hs.
  set (rest := (Seq (Chr "[")
                  (Seq (Seq (Class false [("A", "Z")])
                          (Seq (Class false [("A", "Z")]) Eps))
                     (Seq (Chr "]") (Seq (Star Space) Eps))))%char).
  change (star_loop (m false Space) (m false rest k) (length s) i s = None).
  apply (star_space_none _ (fun c => c <> "["%char)); [|exact Hs].
  intros j u Hu. destruct Hu as [|x u Hx Hu]; [reflexivity|].
  unfold rest. cbn [m one_char]. unfold chr_ok.
  destruct (Ascii.eqb_spec x "["); [contradiction | reflexivity].
Qed.

Lemma no_bracket_no_country_code s :
  Forall (fun c => c <> "["%char) s -> re_delete country_code s = s.
Proof.
  unfold re_delete. generalize 0 at 2.
  induction s as [|c t IH]; intros i Hs; [reflexivity|].
  cbn [delete_aux]. rewrite (country_code_needs_bracket _ i (c :: t) Hs).
  rewrite IH; [reflexivity|]. apply Forall_cons in Hs as [_ Hs]. exact Hs.
Qed.

Lemma split_on_Forall (P : ascii -> Prop) sep s :
  Forall P s -> Forall (Forall P) (split_on sep s).
Proof.
  induction 1 as [|x l Hx Hl IH]; cbn [split_on]; [repeat constructor|].
  destruct (Ascii.eqb x sep); [constructor; [constructor | exact IH]|].
  destruct (split_on sep l) as [|h r]; [repeat constructor; exact Hx|].
  apply Forall_cons in IH as [Hh Hr].
  constructor; [constructor; assumption | exact Hr].
Qed.

(** X26: a name made only of spaces, commas, semicolons and periods
    is standardised to the empty string, and a field made only of such
    names to the empty field. *)
Theorem punctuation_only_name_is_dropped :
  forall (name : str),
    forallb (mem_c " ,;.") name = true ->
    standardize_name name = [] /\ clean_name_field name = [].
Proof.
  assert (forall name, forallb (mem_c " ,;.") name = true ->
                       standardize_name name = []) as S.
  { intros name H. unfold standardize_name, standardize_with.
    destruct (truthy name); [|reflexivity]. cbn [negb].
    assert (cleaned_name name = []) as ->; [|reflexivity].
    unfold cleaned_name.
    assert (Forall (fun c => mem_c " ,;." c = true) (strip name)) as F.
    { apply Forall_strip_by, Forall_forall. intros c Hc.
      rewrite forallb_forall in H. apply H, list_elem_of_In, Hc. }
    rewrite no_bracket_no_country_code.
    - unfold strip_chars, strip_by. rewrite lstrip_by_all; [reflexivity|].
      apply forallb_forall. intros c Hc. rewrite Forall_forall in F.
      apply F, list_elem_of_In, Hc.
    - eapply Forall_impl; [exact F|]. intros c Hc ->. discriminate Hc. }
  intros name H. split; [apply S, H|].
  unfold clean_name_field, clean_name_field_with.
  destruct (truthy name); [|reflexivity]. cbn [negb].
  assert (forall seen cleaned,
             name_loop standardize_name (split_on ";" name) seen cleaned
             = cleaned) as L.
  { assert (Forall (fun p => forallb (mem_c " ,;.") p = true)
              (split_on ";" name)) as P.
    { eapply Forall_impl;
        [apply (split_on_Forall (fun c => mem_c " ,;." c = true)),
           Forall_forall; intros c Hc; rewrite forallb_forall in H;
           apply H, list_elem_of_In, Hc|].
      intros p Hp. apply forallb_forall. intros c Hc.
      rewrite Forall_forall in Hp. apply Hp, list_elem_of_In, Hc. }
    induction P as [|p parts Hp _ IH]; intros seen cleaned; [reflexivity|].
    cbn [name_loop]. rewrite (S p Hp). cbn [truthy negb]. apply IH. }
  rewrite L. reflexivity.
Qed.

Lemma punctuation_only_name_is_dropped_witness :
  standardize_name " ., ;. " = [] /\ clean_name_field " ., ;. " = [].
Proof.
  apply (punctuation_only_name_is_dropped " ., ;. "). reflexivity.
Defined.

(** With a tab between the periods the same does not hold. *)
Example punctuation_ex1 :
  standardize_name
    ["."; ascii_of_nat 9; ","; ascii_of_nat 9; "."]%char = py ",".
Proof. vm_compute. reflexivity. Qed.

(** X27: merging the same batch again, into the output of its first
    merge, leaves every ResourceId as it is and adds no row. *)
Theorem second_merge_keeps_ids :
  forall (B D : DataFrame),
    ResourceId <$> merge_with_existing B (merge_with_existing B D)
    = ResourceId <$> merge_with_existing B D.
Proof.
  intros B D. rewrite (merge_ids B (merge_with_existing B D)).
  assert (new_count B (merge_with_existing B D) = 0) as ->.
  { unfold new_count, truly_new. rewrite filter_none; [reflexivity|].
    intros r Hr Hnew. apply Hnew, batch_known_after_merge, Hr. }
  cbn. apply app_nil_r.
Qed.
